(** * TaxHacker: the transaction list view

    A shallow embedding of [components/transactions/list.tsx]: the field
    renderer registry ([standardFieldRenderers], [getFieldRenderer]), the
    cell derivation ([renderFieldInTable]), the sort state with its
    [ordering] query token, and the row selection.

    Conventions of the embedding.
    - [string | null] is [option string]; a number is an integer [Z] (the
      totals are stored as integers).
    - A JavaScript object read with brackets ([obj[key]]) is a list of own
      properties together with the members it inherits from
      [Object.prototype]; see [Js.get].
    - What a formatter returns is a [Node]: a tree of elements whose leaves
      are JavaScript values or calls of the collaborators that are not part
      of this file ([formatCurrency], [formatDate]).
    - React state is passed explicitly: a handler takes the state it closes
      over and returns the state it sets. *)

From Stdlib Require Import String Ascii ZArith List Bool Lia DecimalString.
Import ListNotations.
Open Scope string_scope.
Set Warnings "-register-all".

(** ** JavaScript values and property lookup *)

Module Js.

(** The members of [Object.prototype]: eleven built-in functions and the
    [__proto__] accessor, which on a plain object answers
    [Object.prototype] itself. *)
Inductive Builtin : Type :=
| BuiltinFunction (fname : string)
| ObjectPrototype.

Definition prototypeMethods : list string :=
  [ "__defineGetter__"; "__defineSetter__"; "hasOwnProperty";
    "__lookupGetter__"; "__lookupSetter__"; "isPrototypeOf";
    "propertyIsEnumerable"; "toString"; "valueOf"; "toLocaleString" ].

Definition objectPrototype (key : string) : option Builtin :=
  if key =? "constructor" then Some (BuiltinFunction "Object")
  else if key =? "__proto__" then Some ObjectPrototype
  else if existsb (String.eqb key) prototypeMethods
       then Some (BuiltinFunction key)
       else None.

Inductive Value : Type :=
| Undefined
| Null
| Boolean (b : bool)
| Number (z : Z)
| Str (s : string)
| Date (ms : Z)
| Array (items : list Value)
| Object (props : list (string * Value))
| Inherited (b : Builtin).

(** ToBoolean. *)
Definition truthy (v : Value) : bool :=
  match v with
  | Undefined | Null => false
  | Boolean b => b
  | Number z => negb (z =? 0)%Z
  | Str s => negb (s =? "")
  | Date _ | Array _ | Object _ | Inherited _ => true
  end.

Definition ofString (o : option string) : Value :=
  match o with Some s => Str s | None => Null end.

Definition ofNumber (o : option Z) : Value :=
  match o with Some z => Number z | None => Null end.

Definition ofDate (o : option Z) : Value :=
  match o with Some d => Date d | None => Null end.

(** Own properties, in insertion order. *)
Fixpoint own {A : Type} (props : list (string * A)) (key : string) : option A :=
  match props with
  | [] => None
  | (k, a) :: rest => if k =? key then Some a else own rest key
  end.

(** The outcome of [obj[key]] on a plain object whose own properties
    have type [A]. *)
Inductive Lookup (A : Type) : Type :=
| Own (a : A)
| Proto (b : Builtin)
| Absent.
Arguments Own {A} a.
Arguments Proto {A} b.
Arguments Absent {A}.

Definition get {A : Type} (props : list (string * A)) (key : string) : Lookup A :=
  match own props key with
  | Some a => Own a
  | None =>
      match objectPrototype key with
      | Some b => Proto b
      | None => Absent
      end
  end.

Definition toValue (l : Lookup Value) : Value :=
  match l with
  | Own v => v
  | Proto b => Inherited b
  | Absent => Undefined
  end.

(** [String.prototype.startsWith] for a one-character prefix and
    [slice(1)]. *)
Definition startsWith (s p : string) : bool := String.prefix p s.

Definition slice1 (s : string) : string :=
  match s with
  | EmptyString => EmptyString
  | String _ rest => rest
  end.

End Js.

(** ** URLSearchParams *)

Module URLSearchParams.

(** The list of name-value pairs of the URL Standard. *)
Definition t : Type := list (string * string).

Fixpoint get (name : string) (params : t) : option string :=
  match params with
  | [] => None
  | (k, v) :: rest => if k =? name then Some v else get name rest
  end.

Definition getAll (name : string) (params : t) : list string :=
  map snd (filter (fun p => fst p =? name) params).

(** [delete(name)] removes every pair of that name. *)
Definition delete (name : string) (params : t) : t :=
  filter (fun p => negb (fst p =? name)) params.

(** [set(name, value)]: the first pair of that name takes the value and
    the others are removed; without such a pair one is appended. *)
Fixpoint set (name value : string) (params : t) : t :=
  match params with
  | [] => [(name, value)]
  | (k, v) :: rest =>
      if k =? name then (name, value) :: delete name rest
      else (k, v) :: set name value rest
  end.

(** [new URLSearchParams(searchParams.toString())]: serialising and
    parsing again gives the same pairs. *)
Definition copy (params : t) : t := params.

(** The pairs whose name is not [name]. *)
Definition others (name : string) (params : t) : t :=
  filter (fun p => negb (fst p =? name)) params.

End URLSearchParams.

(** ** Sort state *)

Inductive Direction : Type := asc | desc.

Module Sorting.
Record t : Type := mk { field : option string; direction : option Direction }.
Definition none : t := mk None None.
End Sorting.

Definition direction_eqb (a b : option Direction) : bool :=
  match a, b with
  | Some asc, Some asc | Some desc, Some desc | None, None => true
  | _, _ => false
  end.

Definition field_eqb (a : option string) (b : string) : bool :=
  match a with
  | Some s => s =? b
  | None => false
  end.

(** The initialiser of the [sorting] state, on the value of
    [searchParams.get("ordering")]. *)
Definition decodeOrdering (ordering : option string) : Sorting.t :=
  match ordering with
  | None => Sorting.none
  | Some o =>
      if o =? "" then Sorting.none
      else
        let isDesc := Js.startsWith o "-" in
        Sorting.mk (Some (if isDesc then Js.slice1 o else o))
                   (Some (if isDesc then desc else asc))
  end.

Definition initialSorting (searchParams : URLSearchParams.t) : Sorting.t :=
  decodeOrdering (URLSearchParams.get "ordering" searchParams).

(** [handleSort]. *)
Definition handleSort (sorting : Sorting.t) (field : string) : Sorting.t :=
  let newDirection :=
    if field_eqb (Sorting.field sorting) field then
      if direction_eqb (Sorting.direction sorting) (Some asc) then Some desc
      else if direction_eqb (Sorting.direction sorting) (Some desc) then None
      else Some asc
    else Some asc in
  Sorting.mk (match newDirection with Some _ => Some field | None => None end)
             newDirection.

(** The token the effect writes: [Some] for [params.set], [None] for
    [params.delete]. *)
Definition encodeOrdering (sorting : Sorting.t) : option string :=
  match Sorting.field sorting, Sorting.direction sorting with
  | Some f, Some d =>
      if f =? "" then None
      else Some (match d with desc => "-" ++ f | asc => f end)
  | _, _ => None
  end.

(** What [router.push] receives. *)
Inductive Href : Type :=
| Detail (id : string)
| Listing (params : URLSearchParams.t).

(** The effect that runs on every change of [sorting]. *)
Definition syncOrdering (sorting : Sorting.t) (searchParams : URLSearchParams.t) : Href :=
  let params := URLSearchParams.copy searchParams in
  Listing (match encodeOrdering sorting with
           | Some ordering => URLSearchParams.set "ordering" ordering params
           | None => URLSearchParams.delete "ordering" params
           end).

Definition listingParams (h : Href) : URLSearchParams.t :=
  match h with
  | Listing params => params
  | Detail _ => []
  end.

(** [handleRowClick]. *)
Definition handleRowClick (id : string) : Href := Detail id.

(** ** Records of the data layer *)

Module Project.
Record t : Type := mk { name : string; color : string }.
End Project.

Module Category.
Record t : Type := mk { name : string; color : string }.
End Category.

Module Transaction.
(** The attributes the list view reads, and [rest] for the further
    columns of the record. *)
Record t : Type := mk {
  id : string;
  name : option string;
  merchant : option string;
  issuedAt : option Z;
  total : option Z;
  currencyCode : option string;
  convertedTotal : option Z;
  convertedCurrencyCode : option string;
  type : option string;
  projectCode : option string;
  project : option Project.t;
  categoryCode : option string;
  category : option Category.t;
  files : list string;
  extra : option (list (string * Js.Value));
  rest : list (string * Js.Value)
}.

(** The record as the object that [transaction[code]] reads. *)
Definition properties (tx : t) : list (string * Js.Value) :=
  [ ("id", Js.Str (id tx));
    ("name", Js.ofString (name tx));
    ("merchant", Js.ofString (merchant tx));
    ("issuedAt", Js.ofDate (issuedAt tx));
    ("total", Js.ofNumber (total tx));
    ("currencyCode", Js.ofString (currencyCode tx));
    ("convertedTotal", Js.ofNumber (convertedTotal tx));
    ("convertedCurrencyCode", Js.ofString (convertedCurrencyCode tx));
    ("type", Js.ofString (type tx));
    ("projectCode", Js.ofString (projectCode tx));
    ("project",
      match project tx with
      | Some p => Js.Object [ ("name", Js.Str (Project.name p));
                              ("color", Js.Str (Project.color p)) ]
      | None => Js.Null
      end);
    ("categoryCode", Js.ofString (categoryCode tx));
    ("category",
      match category tx with
      | Some c => Js.Object [ ("name", Js.Str (Category.name c));
                              ("color", Js.Str (Category.color c)) ]
      | None => Js.Null
      end);
    ("files", Js.Array (map Js.Str (files tx)));
    ("extra", match extra tx with Some o => Js.Object o | None => Js.Null end) ]
  ++ rest tx.

Definition attribute (tx : t) (code : string) : Js.Value :=
  Js.toValue (Js.get (properties tx) code).
End Transaction.

Module Field.
Record t : Type := mk {
  code : string;
  name : string;
  isVisibleInList : bool;
  isExtra : bool
}.
End Field.

(** ** What a formatter returns *)

(** An element carries the arguments of its [className] (one literal, or
    the arguments of [cn]), its inline style and its children; the [key]
    of a list item is left out. [FormatCurrency], [FormatDate] and
    [StringOf] stand for the calls [formatCurrency(total, currencyCode)],
    [formatDate(date, pattern)] and [String(v)]. *)
Inductive Node : Type :=
| Value (v : Js.Value)
| FormatCurrency (total currencyCode : Js.Value)
| FormatDate (date : Js.Value) (pattern : string)
| StringOf (v : Js.Value)
| Element (tag : string) (className : list Js.Value)
          (style : list (string * Js.Value)) (children : list Node).

(** [value && rest]. *)
Definition andAlso (v : Js.Value) (rest : Node) : Node :=
  if Js.truthy v then rest else Value v.

(** A value React mounts nothing for as a child: [null], [undefined], a
    boolean, the empty string, a function, and an array of such values. A
    number is drawn, zero too; for a date or a plain object React throws. *)
Fixpoint valueDrawsNothing (v : Js.Value) : bool :=
  match v with
  | Js.Undefined | Js.Null | Js.Boolean _ => true
  | Js.Str s => s =? ""
  | Js.Inherited (Js.BuiltinFunction _) => true
  | Js.Array items => forallb valueDrawsNothing items
  | Js.Number _ | Js.Date _ | Js.Object _ | Js.Inherited Js.ObjectPrototype => false
  end.

(** A child React mounts nothing for. An element is mounted; what the
    collaborators return is a text. *)
Definition drawsNothing (n : Node) : bool :=
  match n with
  | Value v => valueDrawsNothing v
  | _ => false
  end.

Definition option_string_eqb (a b : option string) : bool :=
  match a, b with
  | Some x, Some y => x =? y
  | None, None => true
  | _, _ => false
  end.

(** ** Currency aggregation *)

Fixpoint addAmount (currency : string) (amount : Z) (acc : list (string * Z))
  : list (string * Z) :=
  match acc with
  | [] => [(currency, amount)]
  | (k, v) :: others =>
      if k =? currency then (k, (v + amount)%Z) :: others
      else (k, v) :: addAmount currency amount others
  end.

Definition amountOf (tx : Transaction.t) : Z :=
  match Transaction.total tx with Some z => z | None => 0%Z end.

(** One group per distinct currency code, in the order first met. A record
    without a currency code joins no group. *)
Definition perCurrency (amount : Transaction.t -> Z)
           (transactions : list Transaction.t) (acc : list (string * Z))
  : list (string * Z) :=
  fold_left
    (fun acc tx =>
       match Transaction.currencyCode tx with
       | Some c => addAmount c (amount tx) acc
       | None => acc
       end)
    transactions acc.

(** Modelled from the spec: [calcNetTotalPerCurrency] of [lib/stats] is not
    among the sources. The signed sum of the totals grouped by currency
    code, one group per distinct code in the order first met. The spec
    does not say what a record without a currency code or without a total
    contributes: here the first joins no group and the second counts 0. *)
Definition calcNetTotalPerCurrency (transactions : list Transaction.t)
  : list (string * Z) :=
  perCurrency amountOf transactions [].

(** Modelled from the spec: [calcTotalPerCurrency] of [lib/stats] is not
    among the sources. The turnover: the sum of the absolute values of the
    totals grouped by currency code, with the same conventions. *)
Definition calcTotalPerCurrency (transactions : list Transaction.t)
  : list (string * Z) :=
  perCurrency (fun tx => Z.abs (amountOf tx)) transactions [].

(** ** The field renderer registry *)

Module Renderer.
Record t : Type := mk {
  name : string;
  code : string;
  classes : option string;
  sortable : bool;
  formatValue : option (Transaction.t -> Node);
  footerValue : option (list Transaction.t -> Node)
}.
End Renderer.

(** The object literal that maps a transaction type to its text colour. *)
Definition typeColors : list (string * Js.Value) :=
  [ ("income", Js.Str "text-green-500");
    ("expense", Js.Str "text-red-500");
    ("other", Js.Str "text-black") ].

(** [{ income: ..., expense: ..., other: ... }[transaction.type || "other"]] *)
Definition typeColor (tx : Transaction.t) : Js.Value :=
  let key := match Transaction.type tx with
             | Some s => if s =? "" then "other" else s
             | None => "other"
             end in
  Js.toValue (Js.get typeColors key).

Definition issuedAtFormatValue (tx : Transaction.t) : Node :=
  if Js.truthy (Js.ofDate (Transaction.issuedAt tx))
  then FormatDate (Js.ofDate (Transaction.issuedAt tx)) "yyyy-MM-dd"
  else Value (Js.Str "").

(** [x?.name || ""] and [x?.color] on an optional relation. *)
Definition nameOrEmpty (n : option string) : Js.Value :=
  Js.Str (match n with Some s => s | None => "" end).

Definition colorOf (c : option string) : Js.Value :=
  match c with Some s => Js.Str s | None => Js.Undefined end.

Definition badge (color name : Js.Value) : Node :=
  Element "Badge" [Js.Str "whitespace-nowrap"] [("backgroundColor", color)]
          [Value name].

Definition projectCodeFormatValue (tx : Transaction.t) : Node :=
  if Js.truthy (Js.ofString (Transaction.projectCode tx))
  then badge (colorOf (option_map Project.color (Transaction.project tx)))
             (nameOrEmpty (option_map Project.name (Transaction.project tx)))
  else Value (Js.Str "-").

Definition categoryCodeFormatValue (tx : Transaction.t) : Node :=
  if Js.truthy (Js.ofString (Transaction.categoryCode tx))
  then badge (colorOf (option_map Category.color (Transaction.category tx)))
             (nameOrEmpty (option_map Category.name (Transaction.category tx)))
  else Value (Js.Str "-").

Definition filesFormatValue (tx : Transaction.t) : Node :=
  Element "div" [Js.Str "flex items-center gap-2 text-sm"] []
          [ Element "File" [Js.Str "w-4 h-4"] [] [];
            Value (Js.Number (Z.of_nat (List.length (Transaction.files tx)))) ].

(** The first child of the total cell: the amount in its own currency. *)
Definition primaryAmount (tx : Transaction.t) : Node :=
  if Js.truthy (Js.ofNumber (Transaction.total tx))
     && Js.truthy (Js.ofString (Transaction.currencyCode tx))
  then FormatCurrency (Js.ofNumber (Transaction.total tx))
                      (Js.ofString (Transaction.currencyCode tx))
  else Value (Js.ofNumber (Transaction.total tx)).

Definition convertedSpan (tx : Transaction.t) : Node :=
  Element "span" [Js.Str "text-sm -mt-1"] []
          [ Value (Js.Str "(");
            FormatCurrency (Js.ofNumber (Transaction.convertedTotal tx))
                           (Js.ofString (Transaction.convertedCurrencyCode tx));
            Value (Js.Str ")") ].

(** The second child of the total cell:
    [convertedTotal && convertedCurrencyCode &&
     convertedCurrencyCode !== currencyCode && <span>...</span>]. *)
Definition convertedLine (tx : Transaction.t) : Node :=
  andAlso (Js.ofNumber (Transaction.convertedTotal tx))
    (andAlso (Js.ofString (Transaction.convertedCurrencyCode tx))
       (andAlso (Js.Boolean (negb (option_string_eqb
                                     (Transaction.convertedCurrencyCode tx)
                                     (Transaction.currencyCode tx))))
          (convertedSpan tx))).

Definition totalFormatValue (tx : Transaction.t) : Node :=
  Element "div" [Js.Str "text-right text-lg"] []
    [ Element "div" [typeColor tx; Js.Str "flex flex-col justify-end"] []
        [ Element "span" [] [] [primaryAmount tx];
          convertedLine tx ] ].

Definition netRow (entry : string * Z) : Node :=
  Element "dd"
    [ Js.Str "text-sm first:text-base font-medium";
      if (snd entry >=? 0)%Z then Js.Str "text-green-600" else Js.Str "text-red-600" ]
    []
    [ FormatCurrency (Js.Number (snd entry)) (Js.Str (fst entry)) ].

Definition turnoverRow (entry : string * Z) : Node :=
  Element "dd" [Js.Str "text-sm text-muted-foreground"] []
    [ FormatCurrency (Js.Number (snd entry)) (Js.Str (fst entry)) ].

Definition heading (title : string) : Node :=
  Element "dt"
    [Js.Str "text-xs font-semibold text-muted-foreground uppercase tracking-wide"]
    [] [Value (Js.Str title)].

Definition totalFooterValue (transactions : list Transaction.t) : Node :=
  let netTotalPerCurrency := calcNetTotalPerCurrency transactions in
  let turnoverPerCurrency := calcTotalPerCurrency transactions in
  Element "div" [Js.Str "flex flex-col gap-3 text-right"] []
    [ Element "dl" [Js.Str "space-y-1"] []
        (heading "Net Total" :: map netRow netTotalPerCurrency);
      Element "dl" [Js.Str "space-y-1"] []
        (heading "Turnover" :: map turnoverRow turnoverPerCurrency) ].

Definition convertedTotalFormatValue (tx : Transaction.t) : Node :=
  Element "div"
    [typeColor tx; Js.Str "flex flex-col justify-end text-right text-lg"] []
    [ if Js.truthy (Js.ofNumber (Transaction.convertedTotal tx))
         && Js.truthy (Js.ofString (Transaction.convertedCurrencyCode tx))
      then FormatCurrency (Js.ofNumber (Transaction.convertedTotal tx))
                          (Js.ofString (Transaction.convertedCurrencyCode tx))
      else Value (Js.ofNumber (Transaction.convertedTotal tx)) ].

Definition standardFieldRenderers : list (string * Renderer.t) :=
  [ ("name",
      Renderer.mk "Name" "name"
        (Some "font-medium min-w-[120px] max-w-[300px] overflow-hidden")
        true None None);
    ("merchant",
      Renderer.mk "Merchant" "merchant"
        (Some "min-w-[120px] max-w-[250px] overflow-hidden") true None None);
    ("issuedAt",
      Renderer.mk "Date" "issuedAt" (Some "min-w-[100px]") true
        (Some issuedAtFormatValue) None);
    ("projectCode",
      Renderer.mk "Project" "projectCode" None true
        (Some projectCodeFormatValue) None);
    ("categoryCode",
      Renderer.mk "Category" "categoryCode" None true
        (Some categoryCodeFormatValue) None);
    ("files",
      Renderer.mk "Files" "files" None false (Some filesFormatValue) None);
    ("total",
      Renderer.mk "Total" "total" (Some "text-right") true
        (Some totalFormatValue) (Some totalFooterValue));
    ("convertedTotal",
      Renderer.mk "Converted Total" "convertedTotal" (Some "text-right") true
        (Some convertedTotalFormatValue) None);
    ("currencyCode",
      Renderer.mk "Currency" "currencyCode" (Some "text-right") true None None) ].

Definition fallbackRenderer (field : Field.t) : Renderer.t :=
  Renderer.mk (Field.name field) (Field.code field) (Some "") false None None.

(** What [getFieldRenderer] hands back: a renderer object, or the member of
    [Object.prototype] that the bracket lookup found. The property reads on
    it follow: a built-in function has a [name] and none of the other
    properties, [Object.prototype] has none of them. *)
Module Resolved.
Inductive t : Type :=
| Configured (r : Renderer.t)
| Foreign (b : Js.Builtin).

Definition name (r : t) : Js.Value :=
  match r with
  | Configured c => Js.Str (Renderer.name c)
  | Foreign (Js.BuiltinFunction f) => Js.Str f
  | Foreign Js.ObjectPrototype => Js.Undefined
  end.

Definition code (r : t) : Js.Value :=
  match r with
  | Configured c => Js.Str (Renderer.code c)
  | Foreign _ => Js.Undefined
  end.

Definition classes (r : t) : Js.Value :=
  match r with
  | Configured c =>
      match Renderer.classes c with Some s => Js.Str s | None => Js.Undefined end
  | Foreign _ => Js.Undefined
  end.

Definition sortable (r : t) : bool :=
  match r with
  | Configured c => Renderer.sortable c
  | Foreign _ => false
  end.

Definition formatValue (r : t) : option (Transaction.t -> Node) :=
  match r with
  | Configured c => Renderer.formatValue c
  | Foreign _ => None
  end.

Definition footerValue (r : t) : option (list Transaction.t -> Node) :=
  match r with
  | Configured c => Renderer.footerValue c
  | Foreign _ => None
  end.
End Resolved.

(** Every value the lookup can find is truthy (an object or a function), so
    the test of the [if] fails only when the lookup finds nothing. *)
Definition getFieldRenderer (field : Field.t) : Resolved.t :=
  match Js.get standardFieldRenderers (Field.code field) with
  | Js.Own r => Resolved.Configured r
  | Js.Proto b => Resolved.Foreign b
  | Js.Absent => Resolved.Configured (fallbackRenderer field)
  end.

Module FieldWithRenderer.
Record t : Type := mk { field : Field.t; renderer : Resolved.t }.
End FieldWithRenderer.

Definition visibleFields (fields : list Field.t) : list FieldWithRenderer.t :=
  map (fun field => FieldWithRenderer.mk field (getFieldRenderer field))
      (filter Field.isVisibleInList fields).

(** [value ?? ""]. *)
Definition orEmpty (v : Js.Value) : Js.Value :=
  match v with
  | Js.Undefined | Js.Null => Js.Str ""
  | _ => v
  end.

(** [transaction.extra?.[code]]. *)
Definition extraValue (tx : Transaction.t) (code : string) : Js.Value :=
  match Transaction.extra tx with
  | Some props => Js.toValue (Js.get props code)
  | None => Js.Undefined
  end.

Definition renderFieldInTable (tx : Transaction.t) (field : FieldWithRenderer.t) : Node :=
  let f := FieldWithRenderer.field field in
  if Field.isExtra f then Value (orEmpty (extraValue tx (Field.code f)))
  else
    match Resolved.formatValue (FieldWithRenderer.renderer field) with
    | Some format => format tx
    | None => StringOf (Transaction.attribute tx (Field.code f))
    end.

(** The click on a column header:
    [field.renderer.sortable && handleSort(field.code)]. *)
Definition headerClick (sorting : Sorting.t) (field : FieldWithRenderer.t) : Sorting.t :=
  if Resolved.sortable (FieldWithRenderer.renderer field)
  then handleSort sorting (Field.code (FieldWithRenderer.field field))
  else sorting.

Definition column (field : Field.t) : FieldWithRenderer.t :=
  FieldWithRenderer.mk field (getFieldRenderer field).

(** ** Row selection *)

Definition includes (items : list string) (id : string) : bool :=
  existsb (fun item => item =? id) items.

Definition toggleAllRows (selectedIds : list string) (transactions : list Transaction.t)
  : list string :=
  if (List.length selectedIds =? List.length transactions)%nat then []
  else map Transaction.id transactions.

Definition toggleOneRow (selectedIds : list string) (id : string) : list string :=
  if includes selectedIds id
  then filter (fun item => negb (item =? id)) selectedIds
  else selectedIds ++ [id].

(** The header checkbox: [selectedIds.length === transactions.length]. *)
Definition allChecked (selectedIds : list string) (transactions : list Transaction.t) : bool :=
  (List.length selectedIds =? List.length transactions)%nat.

(** ** The component as a transition system *)

Module TransactionList.

(** The props and the two pieces of state of one mounted component. *)
Record t : Type := mk {
  transactions : list Transaction.t;
  fields : list Field.t;
  selectedIds : list string;
  sorting : Sorting.t
}.

Inductive Event : Type :=
| ToggleAll
| ToggleOne (id : string)
| ActionComplete
| HeaderClick (field : FieldWithRenderer.t)
| Render (transactions : list Transaction.t) (fields : list Field.t).

(** The events the rendered table can raise: a row checkbox exists for
    each listed transaction, the bulk menu is mounted while something is
    selected, a header exists for each visible field. The parent may
    render the component again with any props. *)
Definition offered (c : t) (e : Event) : Prop :=
  match e with
  | ToggleAll => True
  | ToggleOne id => In id (map Transaction.id (transactions c))
  | ActionComplete => selectedIds c <> []
  | HeaderClick field => In field (visibleFields (fields c))
  | Render _ _ => True
  end.

Definition step (c : t) (e : Event) : t :=
  match e with
  | ToggleAll =>
      mk (transactions c) (fields c)
         (toggleAllRows (selectedIds c) (transactions c)) (sorting c)
  | ToggleOne id =>
      mk (transactions c) (fields c) (toggleOneRow (selectedIds c) id) (sorting c)
  | ActionComplete => mk (transactions c) (fields c) [] (sorting c)
  | HeaderClick field =>
      mk (transactions c) (fields c) (selectedIds c) (headerClick (sorting c) field)
  | Render transactions' fields' =>
      mk transactions' fields' (selectedIds c) (sorting c)
  end.

(** The state after mounting with the given query string. *)
Definition mount (transactions : list Transaction.t) (fields : list Field.t)
           (searchParams : URLSearchParams.t) : t :=
  mk transactions fields [] (initialSorting searchParams).

(** Every selected id is the id of a listed transaction. *)
Definition selectionListed (c : t) : Prop :=
  incl (selectedIds c) (map Transaction.id (transactions c)).

End TransactionList.


(** ** Sample data *)

Definition nameField : Field.t := Field.mk "name" "Name" true false.
Definition filesField : Field.t := Field.mk "files" "Files" true false.
Definition totalField : Field.t := Field.mk "total" "Total" true false.
Definition custom1Field : Field.t := Field.mk "custom1" "Custom 1" true true.
Definition constructorField : Field.t := Field.mk "constructor" "Constructor" true true.

(** A transaction with the given id, amount and currency, and nothing else. *)
Definition plain (id : string) (total : option Z) (currencyCode : option string)
  : Transaction.t :=
  Transaction.mk id None None None total currencyCode None None None
                 None None None None [] None [].

Definition sampleParams : URLSearchParams.t :=
  [("search", "taxi"); ("ordering", "name"); ("page", "2"); ("ordering", "-total")].

(** The gate of toggle-all in the words of the specification: every listed
    identifier is in the selection. The code tests [allChecked] instead. *)
Definition everyListedSelected (selectedIds : list string)
           (transactions : list Transaction.t) : bool :=
  forallb (includes selectedIds) (map Transaction.id transactions).

(** A selection made on one page that is still there when another list
    arrives. *)
Definition staleSelection : TransactionList.t :=
  TransactionList.mk [plain "A" None None; plain "B" None None] []
                     ["A"] Sorting.none.

(** [Object.keys(standardFieldRenderers)]. *)
Definition standardCodes : list string := map fst standardFieldRenderers.

(** A transaction whose [extra] is the empty object. *)
Definition emptyExtra : Transaction.t :=
  Transaction.mk "t1" (Some "Taxi") None None (Some 1250%Z) (Some "USD")
                 None None (Some "expense") None None None None [] (Some []) [].

(** A transaction of amount zero, converted from USD to EUR. *)
Definition zeroAmount : Transaction.t :=
  Transaction.mk "t2" (Some "Voucher") None None (Some 0%Z) (Some "USD")
                 (Some 0%Z) (Some "EUR") (Some "expense") None None None None
                 [] None [].

Definition threeTotals : list Transaction.t :=
  [ plain "a" (Some 100%Z) (Some "USD");
    plain "b" (Some (-40)%Z) (Some "USD");
    plain "c" (Some 50%Z) (Some "EUR") ].

(** The sum a currency collects over a list, for an amount function. *)
Fixpoint sumFor (amount : Transaction.t -> Z) (currency : string)
         (transactions : list Transaction.t) : Z :=
  match transactions with
  | [] => 0%Z
  | tx :: others =>
      ((if option_string_eqb (Transaction.currencyCode tx) (Some currency)
        then amount tx else 0) + sumFor amount currency others)%Z
  end.

Definition hasCurrency (currency : string) (tx : Transaction.t) : bool :=
  option_string_eqb (Transaction.currencyCode tx) (Some currency).

(** The invariant of the sort state: a direction only with a field. *)
Definition sortingWellFormed (s : Sorting.t) : Prop :=
  Sorting.field s = None -> Sorting.direction s = None.

(** ** The rest of the rendered table *)

Definition arrowUp : Node := Element "ArrowUpIcon" [Js.Str "w-4 h-4 ml-1 inline"] [] [].
Definition arrowDown : Node := Element "ArrowDownIcon" [Js.Str "w-4 h-4 ml-1 inline"] [] [].

(** [getSortIcon]. *)
Definition getSortIcon (sorting : Sorting.t) (field : string) : Node :=
  if negb (field_eqb (Sorting.field sorting) field) then Value Js.Null
  else if direction_eqb (Sorting.direction sorting) (Some asc) then arrowUp
  else if direction_eqb (Sorting.direction sorting) (Some desc) then arrowDown
  else Value Js.Null.

(** The title of a column: [field.name || field.renderer.name]. *)
Definition headerLabel (field : FieldWithRenderer.t) : Js.Value :=
  let own := Js.Str (Field.name (FieldWithRenderer.field field)) in
  if Js.truthy own then own else Resolved.name (FieldWithRenderer.renderer field).

(** A cell of the footer row:
    [field.renderer.footerValue ? field.renderer.footerValue(transactions) : ""]. *)
Definition footerCell (transactions : list Transaction.t) (field : FieldWithRenderer.t)
  : Node :=
  match Resolved.footerValue (FieldWithRenderer.renderer field) with
  | Some footer => footer transactions
  | None => Value (Js.Str "")
  end.

(** The checkbox of a row: [selectedIds.includes(transaction.id)]. *)
Definition rowChecked (selectedIds : list string) (tx : Transaction.t) : bool :=
  includes selectedIds (Transaction.id tx).

(** The bulk menu is mounted while [selectedIds.length > 0]. *)
Definition bulkMenuShown (selectedIds : list string) : bool :=
  (0 <? List.length selectedIds)%nat.

(** [String(v)] on the primitive values; for a number, the decimal digits
    of the integer, below the 1e21 from which JavaScript writes an
    exponent. The text for a larger number, a date, an array, an object or
    a function is not modelled. *)
Definition jsToString (v : Js.Value) : option string :=
  match v with
  | Js.Undefined => Some "undefined"
  | Js.Null => Some "null"
  | Js.Boolean true => Some "true"
  | Js.Boolean false => Some "false"
  | Js.Number z =>
      if (Z.abs z <? 10 ^ 21)%Z then Some (NilZero.string_of_int (Z.to_int z))
      else None
  | Js.Str s => Some s
  | _ => None
  end.

(** The states a component mounted on [transactions] goes through while
    the parent keeps handing it that list; the fields may change. *)
Inductive reachableOver (transactions : list Transaction.t)
  : TransactionList.t -> Prop :=
| over_mount fields searchParams :
    reachableOver transactions
      (TransactionList.mount transactions fields searchParams)
| over_step c e :
    reachableOver transactions c ->
    TransactionList.offered c e ->
    (forall transactions' fields',
        e = TransactionList.Render transactions' fields' ->
        transactions' = transactions) ->
    reachableOver transactions (TransactionList.step c e).

(** The states a mounted component goes through. *)
Inductive reachable : TransactionList.t -> Prop :=
| reachable_mount transactions fields searchParams :
    reachable (TransactionList.mount transactions fields searchParams)
| reachable_step c e :
    reachable c -> TransactionList.offered c e ->
    reachable (TransactionList.step c e).

(** ** The build configuration *)

Module NextConfig.

(** The variables of [process.env] the file reads; an unset variable is
    [undefined]. *)
Record Env : Type := mkEnv {
  NEXT_PUBLIC_SENTRY_DSN : option string;
  SENTRY_ORG : option string;
  SENTRY_PROJECT : option string;
  CI : option string
}.

Definition envValue (o : option string) : Js.Value :=
  match o with Some s => Js.Str s | None => Js.Undefined end.

Record Config : Type := mkConfig {
  eslintIgnoreDuringBuilds : bool;
  imagesUnoptimized : bool;
  serverActionsBodySizeLimit : string
}.

Definition nextConfig : Config := mkConfig true true "256mb".

Record SentryOptions : Type := mkOptions {
  silent : bool;
  org : Js.Value;
  project : Js.Value;
  disableLogger : bool;
  widenClientFileUpload : bool;
  tunnelRoute : string
}.

(** [a && b && c] on values. *)
Definition isSentryEnabled (env : Env) : Js.Value :=
  let dsn := envValue (NEXT_PUBLIC_SENTRY_DSN env) in
  let organisation := envValue (SENTRY_ORG env) in
  if Js.truthy dsn
  then if Js.truthy organisation then envValue (SENTRY_PROJECT env) else organisation
  else dsn.

Inductive Export : Type :=
| Plain (config : Config)
| WithSentry (config : Config) (options : SentryOptions).

Definition defaultExport (env : Env) : Export :=
  if Js.truthy (isSentryEnabled env)
  then WithSentry nextConfig
         (mkOptions (negb (Js.truthy (envValue (CI env))))
                    (envValue (SENTRY_ORG env))
                    (envValue (SENTRY_PROJECT env))
                    true true "/monitoring")
  else Plain nextConfig.

(** A variable that is set to a non-empty text. *)
Definition present (o : option string) : Prop :=
  exists s, o = Some s /\ s <> "".

End NextConfig.

Definition sentryEnv : NextConfig.Env :=
  NextConfig.mkEnv (Some "https://key@sentry.example/1") (Some "acme")
                   (Some "taxhacker") None.

(** * Properties *)

(** ** The [ordering] token *)

Lemma field_eqb_refl (f : string) : field_eqb (Some f) f = true.
Proof. apply String.eqb_refl. Qed.

Lemma field_eqb_neq (o : option string) (f : string) :
  o <> Some f -> field_eqb o f = false.
Proof.
  destruct o as [g|]; simpl; [|reflexivity].
  intros Hne. destruct (String.eqb_spec g f); [subst; congruence | reflexivity].
Qed.

Lemma handleSort_other (s : Sorting.t) (g : string) :
  Sorting.field s <> Some g ->
  handleSort s g = Sorting.mk (Some g) (Some asc).
Proof.
  intros Hne. unfold handleSort. now rewrite (field_eqb_neq _ _ Hne).
Qed.

Lemma handleSort_same (f : string) (d : option Direction) :
  handleSort (Sorting.mk (Some f) d) f =
  match d with
  | Some asc => Sorting.mk (Some f) (Some desc)
  | Some desc => Sorting.none
  | None => Sorting.mk (Some f) (Some asc)
  end.
Proof.
  unfold handleSort. simpl. rewrite String.eqb_refl.
  destruct d as [[|]|]; reflexivity.
Qed.

Lemma handleSort_wellFormed (s : Sorting.t) (f : string) :
  sortingWellFormed (handleSort s f).
Proof.
  unfold sortingWellFormed, handleSort.
  destruct (field_eqb (Sorting.field s) f); simpl; [|discriminate].
  destruct (direction_eqb (Sorting.direction s) (Some asc)); simpl; [discriminate|].
  destruct (direction_eqb (Sorting.direction s) (Some desc)); simpl;
    [reflexivity | discriminate].
Qed.

Lemma decodeOrdering_wellFormed (o : option string) :
  sortingWellFormed (decodeOrdering o).
Proof.
  unfold sortingWellFormed, decodeOrdering.
  destruct o as [t|]; [|reflexivity].
  destruct (t =? ""); [reflexivity | simpl; discriminate].
Qed.

Module ParamsFacts.
Import URLSearchParams.

Lemma get_delete (name : string) (params : t) : get name (delete name params) = None.
Proof.
  induction params as [|[k v] rest IH]; simpl; [reflexivity|].
  destruct (String.eqb_spec k name) as [->|Hne]; simpl; [exact IH|].
  destruct (String.eqb_spec k name); [contradiction | exact IH].
Qed.

Lemma get_set (name value : string) (params : t) :
  get name (set name value params) = Some value.
Proof.
  induction params as [|[k v] rest IH]; simpl.
  - now rewrite String.eqb_refl.
  - destruct (String.eqb_spec k name) as [->|Hne]; simpl.
    + now rewrite String.eqb_refl.
    + destruct (String.eqb_spec k name); [contradiction | exact IH].
Qed.

Lemma others_delete (name : string) (params : t) :
  others name (delete name params) = others name params.
Proof.
  unfold others, delete.
  induction params as [|[k v] rest IH]; simpl; [reflexivity|].
  destruct (k =? name) eqn:E; simpl; [exact IH|].
  rewrite E. simpl. now rewrite IH.
Qed.

Lemma others_set (name value : string) (params : t) :
  others name (set name value params) = others name params.
Proof.
  induction params as [|[k v] rest IH]; simpl.
  - now rewrite String.eqb_refl.
  - destruct (k =? name) eqn:E; simpl.
    + rewrite String.eqb_refl. simpl. apply others_delete.
    + rewrite E. simpl. now rewrite IH.
Qed.

Lemma getAll_others (name key : string) (params : t) :
  key <> name -> getAll key (others name params) = getAll key params.
Proof.
  intros Hne. unfold getAll, others.
  induction params as [|[k v] rest IH]; simpl; [reflexivity|].
  destruct (String.eqb_spec k name) as [->|Hk]; simpl.
  - destruct (String.eqb_spec name key); [congruence | exact IH].
  - destruct (k =? key); simpl; now rewrite IH.
Qed.

Lemma get_others (name key : string) (params : t) :
  key <> name -> get key (others name params) = get key params.
Proof.
  intros Hne. unfold others.
  induction params as [|[k v] rest IH]; simpl; [reflexivity|].
  destruct (String.eqb_spec k name) as [->|Hk]; simpl.
  - destruct (String.eqb_spec name key); [congruence | exact IH].
  - destruct (k =? key); [reflexivity | exact IH].
Qed.

End ParamsFacts.

Lemma syncOrdering_others (sorting : Sorting.t) (searchParams : URLSearchParams.t) :
  URLSearchParams.others "ordering" (listingParams (syncOrdering sorting searchParams))
  = URLSearchParams.others "ordering" searchParams.
Proof.
  unfold syncOrdering, URLSearchParams.copy. simpl.
  destruct (encodeOrdering sorting).
  - apply ParamsFacts.others_set.
  - apply ParamsFacts.others_delete.
Qed.

Lemma syncOrdering_get (sorting : Sorting.t) (searchParams : URLSearchParams.t) :
  URLSearchParams.get "ordering" (listingParams (syncOrdering sorting searchParams))
  = encodeOrdering sorting.
Proof.
  unfold syncOrdering, URLSearchParams.copy. simpl.
  destruct (encodeOrdering sorting).
  - apply ParamsFacts.get_set.
  - apply ParamsFacts.get_delete.
Qed.

Lemma startsWith_dash (c : ascii) (rest : string) :
  Js.startsWith (String c rest) "-" = if Ascii.ascii_dec "-" c then true else false.
Proof.
  unfold Js.startsWith.
  change (String.prefix "-" (String c rest))
    with (if Ascii.ascii_dec "-" c then String.prefix "" rest else false).
  destruct (Ascii.ascii_dec "-" c); [destruct rest|]; reflexivity.
Qed.

(** Outside the two tokens [""] and ["-"], writing back what was parsed
    gives the token again. *)
Lemma encode_decode (token : option string) :
  token <> Some "" -> token <> Some "-" ->
  encodeOrdering (decodeOrdering token) = token.
Proof.
  intros Hempty Hdash. destruct token as [o|]; [|reflexivity].
  unfold decodeOrdering.
  destruct (String.eqb_spec o "") as [->|Hne]; [congruence|].
  destruct o as [|c rest]; [congruence|].
  rewrite startsWith_dash.
  destruct (Ascii.ascii_dec "-" c) as [<-|Hc]; unfold encodeOrdering; simpl.
  - destruct (String.eqb_spec rest "") as [->|Hr]; [congruence | reflexivity].
  - reflexivity.
Qed.

(** The columns whose header reacts to a click are the eight standard
    columns other than [files]. *)
Lemma sortable_codes (field : Field.t) :
  Resolved.sortable (getFieldRenderer field) = true <->
  In (Field.code field)
     [ "name"; "merchant"; "issuedAt"; "projectCode"; "categoryCode";
       "total"; "convertedTotal"; "currencyCode" ].
Proof.
  unfold getFieldRenderer, Js.get, standardFieldRenderers. cbn [Js.own].
  repeat match goal with
         | |- context [String.eqb ?k (Field.code field)] =>
             destruct (String.eqb_spec k (Field.code field)) as [<-|?]
         end;
    try (simpl; split; [intros _; tauto | reflexivity]).
  - simpl. split; [discriminate|].
    intros H. repeat (destruct H as [H|H]; [discriminate|]). contradiction.
  - split.
    + destruct (Js.objectPrototype (Field.code field)); simpl; discriminate.
    + simpl. intros H. repeat (destruct H as [H|H]; [congruence|]). contradiction.
Qed.

(** C1. A click on the header of a sortable column walks the cycle
    unsorted, ascending, descending, unsorted on that column; from a state
    sorted on any other column (or unsorted) it gives ascending on the
    clicked one; a click on the header of a column that is not sortable
    leaves the sort state as it is. *)
Theorem sort_cycle (field : Field.t) (s : Sorting.t) :
  let col := column field in
  let f := Field.code field in
  (Resolved.sortable (getFieldRenderer field) = true ->
     headerClick Sorting.none col = Sorting.mk (Some f) (Some asc)
     /\ headerClick (Sorting.mk (Some f) (Some asc)) col = Sorting.mk (Some f) (Some desc)
     /\ headerClick (Sorting.mk (Some f) (Some desc)) col = Sorting.none
     /\ (Sorting.field s <> Some f ->
         headerClick s col = Sorting.mk (Some f) (Some asc)))
  /\ (Resolved.sortable (getFieldRenderer field) = false -> headerClick s col = s).
Proof.
  intros col f. unfold headerClick, col, column. simpl. split; intros Hs; rewrite Hs.
  - repeat split.
    + apply (handleSort_same f (Some asc)).
    + apply (handleSort_same f (Some desc)).
    + apply handleSort_other.
  - reflexivity.
Qed.

Lemma sort_cycle_witness :
  (headerClick Sorting.none (column nameField) = Sorting.mk (Some "name") (Some asc)
   /\ headerClick (Sorting.mk (Some "name") (Some asc)) (column nameField)
      = Sorting.mk (Some "name") (Some desc)
   /\ headerClick (Sorting.mk (Some "name") (Some desc)) (column nameField)
      = Sorting.none
   /\ headerClick (Sorting.mk (Some "total") (Some desc)) (column nameField)
      = Sorting.mk (Some "name") (Some asc))
  /\ headerClick (Sorting.mk (Some "total") (Some desc)) (column filesField)
     = Sorting.mk (Some "total") (Some desc).
Proof.
  split.
  - destruct (proj1 (sort_cycle nameField (Sorting.mk (Some "total") (Some desc)))
                    eq_refl) as (H1 & H2 & H3 & H4).
    split; [exact H1 | split; [exact H2 | split; [exact H3 |]]].
    apply H4. discriminate.
  - apply (proj2 (sort_cycle filesField (Sorting.mk (Some "total") (Some desc)))).
    reflexivity.
Defined.

(** C2. For the absent token, ["name"] and ["-issuedAt"], parsing the token
    into a sort state and writing that state back gives the token again,
    both as the token computed and as the [ordering] parameter of the
    navigation target, whatever the query string was. *)
Theorem ordering_roundtrip :
  (encodeOrdering (decodeOrdering None) = None
   /\ encodeOrdering (decodeOrdering (Some "name")) = Some "name"
   /\ encodeOrdering (decodeOrdering (Some "-issuedAt")) = Some "-issuedAt")
  /\ forall searchParams,
       let written token :=
         URLSearchParams.get "ordering"
           (listingParams (syncOrdering (decodeOrdering token) searchParams)) in
       written None = None
       /\ written (Some "name") = Some "name"
       /\ written (Some "-issuedAt") = Some "-issuedAt".
Proof.
  split; [repeat split|].
  intros searchParams written. unfold written.
  rewrite !syncOrdering_get. repeat split.
Qed.

(** C9. The navigation target of the sort effect has, outside [ordering],
    the pairs of the current query string, in their order; so every other
    parameter keeps its values. *)
Theorem ordering_frame (sorting : Sorting.t) (searchParams : URLSearchParams.t) :
  let target := listingParams (syncOrdering sorting searchParams) in
  URLSearchParams.others "ordering" target
  = URLSearchParams.others "ordering" searchParams
  /\ forall name, name <> "ordering" ->
       URLSearchParams.getAll name target = URLSearchParams.getAll name searchParams
       /\ URLSearchParams.get name target = URLSearchParams.get name searchParams.
Proof.
  intros target. pose proof (syncOrdering_others sorting searchParams) as Ho.
  fold target in Ho. split; [exact Ho|].
  intros name Hne. split.
  - rewrite <- (ParamsFacts.getAll_others "ordering" name target Hne), Ho.
    now apply ParamsFacts.getAll_others.
  - rewrite <- (ParamsFacts.get_others "ordering" name target Hne), Ho.
    now apply ParamsFacts.get_others.
Qed.

Lemma ordering_frame_witness :
  URLSearchParams.getAll "page"
    (listingParams (syncOrdering (Sorting.mk (Some "merchant") (Some desc)) sampleParams))
  = ["2"]
  /\ listingParams (syncOrdering (Sorting.mk (Some "merchant") (Some desc)) sampleParams)
     = [("search", "taxi"); ("ordering", "-merchant"); ("page", "2")].
Proof.
  split; [|reflexivity].
  destruct (ordering_frame (Sorting.mk (Some "merchant") (Some desc)) sampleParams)
    as [_ H].
  destruct (H "page") as [Hall _]; [discriminate|].
  rewrite Hall. reflexivity.
Defined.

(** C10. The token ["-"] parses to the empty field name with direction
    descending; written back, that state removes [ordering] from the query
    string, so the round trip does not give ["-"] again. *)
Theorem dash_token_boundary :
  decodeOrdering (Some "-") = Sorting.mk (Some "") (Some desc)
  /\ encodeOrdering (Sorting.mk (Some "") (Some desc)) = None
  /\ encodeOrdering (decodeOrdering (Some "-")) <> Some "-"
  /\ forall searchParams,
       URLSearchParams.get "ordering"
         (listingParams (syncOrdering (decodeOrdering (Some "-")) searchParams)) = None
       /\ listingParams (syncOrdering (decodeOrdering (Some "-")) searchParams)
          = URLSearchParams.delete "ordering" searchParams.
Proof.
  repeat split; try discriminate.
  rewrite syncOrdering_get. reflexivity.
Qed.

(** ** Row selection *)

Lemma includes_In (items : list string) (id : string) :
  includes items id = true <-> In id items.
Proof.
  unfold includes. rewrite existsb_exists. split.
  - intros (x & Hx & He). apply String.eqb_eq in He. now subst.
  - intros H. exists id. split; [exact H | apply String.eqb_refl].
Qed.

Lemma everyListedSelected_incl (sel : list string) (txs : list Transaction.t) :
  everyListedSelected sel txs = true <-> incl (map Transaction.id txs) sel.
Proof.
  unfold everyListedSelected, incl. rewrite forallb_forall.
  split; intros H x Hx; apply includes_In; auto.
Qed.

(** On a duplicate-free selection of listed rows with distinct ids, the
    length test of the code is the test of the specification. *)
Lemma allChecked_everyListedSelected (sel : list string) (txs : list Transaction.t) :
  NoDup sel -> NoDup (map Transaction.id txs) -> incl sel (map Transaction.id txs) ->
  allChecked sel txs = everyListedSelected sel txs.
Proof.
  intros Hsel Hids Hincl. unfold allChecked.
  destruct (Nat.eqb_spec (List.length sel) (List.length txs)) as [Heq|Hne];
    symmetry.
  - apply everyListedSelected_incl.
    apply NoDup_length_incl; [exact Hsel | | exact Hincl].
    rewrite length_map. lia.
  - destruct (everyListedSelected sel txs) eqn:E; [|reflexivity].
    apply everyListedSelected_incl in E.
    pose proof (NoDup_incl_length Hsel Hincl) as H1.
    pose proof (NoDup_incl_length Hids E) as H2.
    rewrite length_map in H1, H2. lia.
Qed.

Lemma toggleOneRow_In (sel : list string) (id x : string) :
  In x (toggleOneRow sel id) <->
  (In x sel /\ x <> id) \/ (x = id /\ ~ In id sel).
Proof.
  unfold toggleOneRow. destruct (includes sel id) eqn:E.
  - apply includes_In in E. rewrite filter_In. split.
    + intros [Hin Hneq]. left. split; [exact Hin|].
      intros ->. rewrite String.eqb_refl in Hneq. discriminate.
    + intros [[Hin Hneq]|[-> Hnot]]; [|contradiction].
      split; [exact Hin|]. destruct (String.eqb_spec x id); [contradiction|reflexivity].
  - assert (Hnot : ~ In id sel).
    { intros H. apply includes_In in H. congruence. }
    rewrite in_app_iff. simpl. split.
    + intros [Hin|[<-|[]]]; [left | right]; split; auto.
      intros ->. contradiction.
    + intros [[Hin _]|[-> _]]; auto.
Qed.

Lemma toggleOneRow_NoDup (sel : list string) (id : string) :
  NoDup sel -> NoDup (toggleOneRow sel id).
Proof.
  intros Hnd. unfold toggleOneRow. destruct (includes sel id) eqn:E.
  - now apply NoDup_filter.
  - apply NoDup_app; [exact Hnd | repeat constructor; intros [] |].
    intros x Hx [<-|[]]. apply includes_In in Hx. congruence.
Qed.

Module SelectionFacts.
Import TransactionList.

Lemma mount_listed transactions fields searchParams :
  selectionListed (mount transactions fields searchParams).
Proof. intros x []. Qed.

Lemma toggleAllRows_listed (sel : list string) (txs : list Transaction.t) :
  incl (toggleAllRows sel txs) (map Transaction.id txs).
Proof.
  unfold toggleAllRows.
  destruct (List.length sel =? List.length txs)%nat; [intros x [] | apply incl_refl].
Qed.

Lemma toggleOneRow_listed (sel listed : list string) (id : string) :
  In id listed -> incl sel listed -> incl (toggleOneRow sel id) listed.
Proof.
  intros Hid Hincl x Hx. apply toggleOneRow_In in Hx.
  destruct Hx as [[Hin _]|[-> _]]; auto.
Qed.

(** Rendering again keeps the state: [useState] holds [selectedIds] and
    [sorting] for as long as the component is mounted. *)
Lemma render_keeps_state (c : t) transactions' fields' :
  selectedIds (step c (Render transactions' fields')) = selectedIds c
  /\ sorting (step c (Render transactions' fields')) = sorting c.
Proof. split; reflexivity. Qed.

(** With distinct ids in the list, the handlers also keep the selection
    free of duplicates, which is what the length test of toggle-all
    relies on. *)
Lemma handlers_keep_NoDup (c : t) (e : Event) :
  NoDup (map Transaction.id (transactions c)) ->
  NoDup (selectedIds c) ->
  NoDup (selectedIds (step c e)).
Proof.
  intros Hids Hsel. destruct e; simpl; auto.
  - unfold toggleAllRows.
    destruct (List.length (selectedIds c) =? List.length (transactions c))%nat;
      [constructor | exact Hids].
  - now apply toggleOneRow_NoDup.
  - constructor.
Qed.

End SelectionFacts.

(** A selection state in the sense of the data model: a set of ids, so
    without duplicates, each the id of a listed transaction. Every state
    reached over one list with distinct ids has such a selection. *)
Lemma reachableOver_selection_state (transactions : list Transaction.t)
      (c : TransactionList.t) :
  NoDup (map Transaction.id transactions) ->
  reachableOver transactions c ->
  TransactionList.transactions c = transactions
  /\ NoDup (TransactionList.selectedIds c)
  /\ incl (TransactionList.selectedIds c) (map Transaction.id transactions).
Proof.
  intros Hids. induction 1 as [fields params | c e Hr IH Hoff Hsame].
  - simpl. split; [reflexivity | split; [constructor | intros x []]].
  - destruct IH as (Htx & Hnd & Hincl).
    assert (Htx' : TransactionList.transactions (TransactionList.step c e)
                   = transactions).
    { destruct e; simpl; try exact Htx. now apply (Hsame transactions0 fields). }
    split; [exact Htx' | split].
    + destruct e; simpl; try exact Hnd.
      * unfold toggleAllRows. rewrite Htx.
        destruct (List.length (TransactionList.selectedIds c)
                  =? List.length transactions)%nat; [constructor | exact Hids].
      * now apply toggleOneRow_NoDup.
      * constructor.
    + destruct e; simpl in *; try exact Hincl.
      * rewrite Htx. apply SelectionFacts.toggleAllRows_listed.
      * rewrite Htx in Hoff. now apply SelectionFacts.toggleOneRow_listed.
      * intros x [].
Qed.

(** C3. For every selection state (a duplicate-free set of listed ids)
    over a list of transactions with distinct ids, toggle-all clears the
    selection if every listed id is selected and otherwise sets it to the
    ids of all listed transactions; this is what a click on the header
    checkbox does in every state the component reaches over such a list;
    and from the empty selection over three rows, two invocations give all
    three ids and then none. *)
Theorem toggle_all :
  (forall selectedIds transactions,
      NoDup selectedIds ->
      NoDup (map Transaction.id transactions) ->
      incl selectedIds (map Transaction.id transactions) ->
      toggleAllRows selectedIds transactions
      = if everyListedSelected selectedIds transactions then []
        else map Transaction.id transactions)
  /\ (forall transactions c,
        NoDup (map Transaction.id transactions) ->
        reachableOver transactions c ->
        TransactionList.selectedIds
          (TransactionList.step c TransactionList.ToggleAll)
        = if everyListedSelected (TransactionList.selectedIds c) transactions
          then [] else map Transaction.id transactions)
  /\ (forall a b c,
        let rows := [a; b; c] in
        toggleAllRows [] rows = map Transaction.id rows
        /\ toggleAllRows (toggleAllRows [] rows) rows = []).
Proof.
  assert (Hgate : forall selectedIds transactions,
             NoDup selectedIds ->
             NoDup (map Transaction.id transactions) ->
             incl selectedIds (map Transaction.id transactions) ->
             toggleAllRows selectedIds transactions
             = if everyListedSelected selectedIds transactions then []
               else map Transaction.id transactions).
  { intros sel txs Hsel Hids Hincl.
    rewrite <- (allChecked_everyListedSelected _ _ Hsel Hids Hincl).
    reflexivity. }
  split; [exact Hgate | split].
  - intros txs c Hids Hr.
    destruct (reachableOver_selection_state txs c Hids Hr) as (Htx & Hnd & Hincl).
    simpl. rewrite Htx. now apply Hgate.
  - intros a b c. split; reflexivity.
Qed.

Lemma toggle_all_witness :
  toggleAllRows ["B"] [plain "A" None None; plain "B" None None; plain "C" None None]
  = ["A"; "B"; "C"]
  /\ toggleAllRows ["C"; "A"; "B"]
       [plain "A" None None; plain "B" None None; plain "C" None None]
     = []
  /\ TransactionList.selectedIds
       (TransactionList.step
          (TransactionList.step
             (TransactionList.mount
                [plain "A" None None; plain "B" None None; plain "C" None None]
                [] [])
             (TransactionList.ToggleOne "B"))
          TransactionList.ToggleAll)
     = ["A"; "B"; "C"].
Proof.
  assert (Hids : NoDup (map Transaction.id
            [plain "A" None None; plain "B" None None; plain "C" None None])).
  { repeat constructor; simpl; intuition discriminate. }
  split; [|split].
  - apply (proj1 toggle_all ["B"]
             [plain "A" None None; plain "B" None None; plain "C" None None]).
    + repeat constructor; simpl; intuition discriminate.
    + exact Hids.
    + intros x [<-|[]]; simpl; auto.
  - apply (proj1 toggle_all ["C"; "A"; "B"]
             [plain "A" None None; plain "B" None None; plain "C" None None]).
    + repeat constructor; simpl; intuition discriminate.
    + exact Hids.
    + intros x [<-|[<-|[<-|[]]]]; simpl; auto.
  - apply (proj1 (proj2 toggle_all)
             [plain "A" None None; plain "B" None None; plain "C" None None]).
    + exact Hids.
    + apply over_step; [apply over_mount | simpl; auto | discriminate].
Defined.

(** Outside the selection states the length test of the code and the
    membership test part ways, in both directions: with a selected id that
    is not listed (the state a new transaction list can leave behind, see
    C4), toggle-all clears although the listed row is not selected, or
    selects all although every listed row is selected. *)
Lemma toggleAllRows_stale_selection :
  (everyListedSelected ["A"] [plain "C" None None] = false
   /\ toggleAllRows ["A"] [plain "C" None None] = [])
  /\ (everyListedSelected ["A"; "B"] [plain "A" None None] = true
      /\ toggleAllRows ["A"; "B"] [plain "A" None None] = ["A"]).
Proof. repeat split. Qed.

(** C4, as the code has it. Toggle-all, toggling a listed row, the reset
    after a bulk action and a header click keep every selected id among
    the ids of the listed transactions. A new transaction list leaves the
    selection as it was, so the property survives it exactly when the new
    list still has every selected id. *)
Theorem selection_listed_step (c : TransactionList.t) (e : TransactionList.Event) :
  TransactionList.offered c e ->
  TransactionList.selectionListed c ->
  match e with
  | TransactionList.Render transactions' _ =>
      TransactionList.selectedIds (TransactionList.step c e)
      = TransactionList.selectedIds c
      /\ (TransactionList.selectionListed (TransactionList.step c e)
          <-> incl (TransactionList.selectedIds c)
                   (map Transaction.id transactions'))
  | _ => TransactionList.selectionListed (TransactionList.step c e)
  end.
Proof.
  intros Hoff Hinv. unfold TransactionList.selectionListed in *.
  destruct e; simpl in *.
  - apply SelectionFacts.toggleAllRows_listed.
  - now apply SelectionFacts.toggleOneRow_listed.
  - intros x [].
  - exact Hinv.
  - split; [reflexivity | tauto].
Qed.

Lemma selection_listed_step_witness :
  TransactionList.selectionListed
    (TransactionList.step staleSelection (TransactionList.ToggleOne "B"))
  /\ TransactionList.selectedIds
       (TransactionList.step staleSelection (TransactionList.ToggleOne "B"))
     = ["A"; "B"].
Proof.
  split; [|reflexivity].
  apply (selection_listed_step staleSelection (TransactionList.ToggleOne "B")).
  - simpl. auto.
  - intros x [<-|[]]. simpl. auto.
Defined.

(** C4 as stated does not hold: a new transaction list that lacks a
    selected id leaves that id selected. *)
Lemma selection_listed_counterexample :
  ~ (forall c e,
       TransactionList.offered c e ->
       TransactionList.selectionListed c ->
       TransactionList.selectionListed (TransactionList.step c e)).
Proof.
  intros H.
  specialize (H staleSelection (TransactionList.Render [plain "C" None None] []) I).
  assert (Hinv : TransactionList.selectionListed staleSelection).
  { intros x [<-|[]]. simpl. auto. }
  specialize (H Hinv "A" (or_introl eq_refl)).
  simpl in H. destruct H as [H|[]]. discriminate H.
Qed.

(** ** The renderer registry *)

Lemma standardCodes_eq :
  standardCodes = [ "name"; "merchant"; "issuedAt"; "projectCode"; "categoryCode";
                    "files"; "total"; "convertedTotal"; "currencyCode" ].
Proof. reflexivity. Qed.

Lemma own_standard (code : string) :
  In code standardCodes ->
  exists r, Js.own standardFieldRenderers code = Some r /\ Renderer.code r = code.
Proof.
  rewrite standardCodes_eq. simpl. intros H.
  repeat (destruct H as [<-|H]; [eexists; split; reflexivity|]).
  contradiction.
Qed.

Lemma own_other (code : string) :
  ~ In code standardCodes -> Js.own standardFieldRenderers code = None.
Proof.
  rewrite standardCodes_eq. intros H. simpl in H.
  unfold standardFieldRenderers. cbn [Js.own].
  repeat match goal with
         | |- context [String.eqb ?k code] =>
             destruct (String.eqb_spec k code) as [<-|?]; [exfalso; tauto|]
         end.
  reflexivity.
Qed.

(** The standard half of the split: a field with one of the nine codes gets
    the renderer configured under that code. *)
Lemma getFieldRenderer_standard (field : Field.t) :
  In (Field.code field) standardCodes ->
  exists r, Js.own standardFieldRenderers (Field.code field) = Some r
            /\ Renderer.code r = Field.code field
            /\ getFieldRenderer field = Resolved.Configured r.
Proof.
  intros H. destruct (own_standard _ H) as (r & Hown & Hcode).
  exists r. repeat split; auto.
  unfold getFieldRenderer, Js.get. now rewrite Hown.
Qed.

(** The fallback half, for the codes that [Object.prototype] does not
    answer: name and code of the field, not sortable, no formatter and no
    footer. *)
Lemma getFieldRenderer_fallback (field : Field.t) :
  ~ In (Field.code field) standardCodes ->
  Js.objectPrototype (Field.code field) = None ->
  getFieldRenderer field = Resolved.Configured (fallbackRenderer field)
  /\ Resolved.name (getFieldRenderer field) = Js.Str (Field.name field)
  /\ Resolved.sortable (getFieldRenderer field) = false
  /\ Resolved.formatValue (getFieldRenderer field) = None
  /\ Resolved.footerValue (getFieldRenderer field) = None.
Proof.
  intros Hstd Hproto.
  assert (E : getFieldRenderer field = Resolved.Configured (fallbackRenderer field)).
  { unfold getFieldRenderer, Js.get. now rewrite (own_other _ Hstd), Hproto. }
  rewrite E. repeat split.
Qed.

(** Whatever the code, the result is not sortable and has neither formatter
    nor footer unless the code is a standard one. *)
Lemma getFieldRenderer_plain (field : Field.t) :
  ~ In (Field.code field) standardCodes ->
  Resolved.sortable (getFieldRenderer field) = false
  /\ Resolved.formatValue (getFieldRenderer field) = None
  /\ Resolved.footerValue (getFieldRenderer field) = None.
Proof.
  intros Hstd. unfold getFieldRenderer, Js.get. rewrite (own_other _ Hstd).
  destruct (Js.objectPrototype (Field.code field)); repeat split.
Qed.

(** C5, at the field whose code is ["constructor"]. The code is none of
    the nine standard codes, yet the lookup in the registry object finds
    the inherited [Object.prototype.constructor], which is truthy, and
    [getFieldRenderer] returns it: its [name] is ["Object"], not the name
    of the field, and it has no [code]. *)
Theorem getFieldRenderer_constructor :
  ~ In (Field.code constructorField) standardCodes
  /\ getFieldRenderer constructorField
     = Resolved.Foreign (Js.BuiltinFunction "Object")
  /\ getFieldRenderer constructorField
     <> Resolved.Configured (fallbackRenderer constructorField)
  /\ Resolved.name (getFieldRenderer constructorField) = Js.Str "Object"
  /\ Resolved.name (getFieldRenderer constructorField)
     <> Js.Str (Field.name constructorField)
  /\ Resolved.code (getFieldRenderer constructorField) = Js.Undefined.
Proof.
  split.
  - rewrite standardCodes_eq. simpl. intuition discriminate.
  - repeat split; discriminate.
Qed.

(** ** Cell values *)

Lemma renderFieldInTable_extra (tx : Transaction.t) (field : Field.t) :
  Field.isExtra field = true ->
  renderFieldInTable tx (column field)
  = Value (orEmpty (extraValue tx (Field.code field))).
Proof. intros H. unfold renderFieldInTable. simpl. now rewrite H. Qed.

(** First step, for the codes that [Object.prototype] does not answer: an
    extra field without a value gives the empty string. *)
Lemma renderFieldInTable_extra_absent (tx : Transaction.t) (field : Field.t) :
  Field.isExtra field = true ->
  Js.objectPrototype (Field.code field) = None ->
  (forall props, Transaction.extra tx = Some props ->
                 Js.own props (Field.code field) = None) ->
  renderFieldInTable tx (column field) = Value (Js.Str "").
Proof.
  intros Hx Hproto Hown. rewrite (renderFieldInTable_extra _ _ Hx).
  unfold extraValue. destruct (Transaction.extra tx) as [props|]; [|reflexivity].
  unfold Js.get. now rewrite (Hown props eq_refl), Hproto.
Qed.

Lemma renderFieldInTable_extra_present (tx : Transaction.t) (field : Field.t)
      (props : list (string * Js.Value)) (s : string) :
  Field.isExtra field = true ->
  Transaction.extra tx = Some props ->
  Js.own props (Field.code field) = Some (Js.Str s) ->
  renderFieldInTable tx (column field) = Value (Js.Str s).
Proof.
  intros Hx He Hown. rewrite (renderFieldInTable_extra _ _ Hx).
  unfold extraValue, Js.get. now rewrite He, Hown.
Qed.

(** Second and third step. *)
Lemma renderFieldInTable_formatted (tx : Transaction.t) (field : Field.t) format :
  Field.isExtra field = false ->
  Resolved.formatValue (getFieldRenderer field) = Some format ->
  renderFieldInTable tx (column field) = format tx.
Proof. intros Hx Hf. unfold renderFieldInTable. simpl. now rewrite Hx, Hf. Qed.

Lemma renderFieldInTable_attribute (tx : Transaction.t) (field : Field.t) :
  Field.isExtra field = false ->
  Resolved.formatValue (getFieldRenderer field) = None ->
  renderFieldInTable tx (column field)
  = StringOf (Transaction.attribute tx (Field.code field)).
Proof. intros Hx Hf. unfold renderFieldInTable. simpl. now rewrite Hx, Hf. Qed.

Lemma renderFieldInTable_custom1 :
  renderFieldInTable emptyExtra (column custom1Field) = Value (Js.Str "")
  /\ renderFieldInTable (plain "t" None None) (column custom1Field)
     = Value (Js.Str "").
Proof. split; reflexivity. Qed.

(** C6, at the extra field whose code is ["constructor"] and a transaction
    whose extra mapping is empty. The key is absent from the mapping, yet
    the cell value is not the empty string: the bracket lookup answers the
    inherited [Object.prototype.constructor], which [??] lets through. *)
Theorem renderFieldInTable_constructor :
  Field.isExtra constructorField = true
  /\ Transaction.extra emptyExtra = Some []
  /\ Js.own (A := Js.Value) [] (Field.code constructorField) = None
  /\ renderFieldInTable emptyExtra (column constructorField)
     = Value (Js.Inherited (Js.BuiltinFunction "Object"))
  /\ renderFieldInTable emptyExtra (column constructorField) <> Value (Js.Str "").
Proof. repeat split; discriminate. Qed.

(** ** The total column *)

Lemma typeColor_tags (tx : Transaction.t) :
  (Transaction.type tx = Some "income" -> typeColor tx = Js.Str "text-green-500")
  /\ (Transaction.type tx = Some "expense" -> typeColor tx = Js.Str "text-red-500")
  /\ (Transaction.type tx = Some "other" -> typeColor tx = Js.Str "text-black")
  /\ (Transaction.type tx = None -> typeColor tx = Js.Str "text-black")
  /\ (Transaction.type tx = Some "" -> typeColor tx = Js.Str "text-black").
Proof. unfold typeColor. repeat split; intros ->; reflexivity. Qed.

Lemma primaryAmount_formatted (tx : Transaction.t) (z : Z) (c : string) :
  Transaction.total tx = Some z -> z <> 0%Z ->
  Transaction.currencyCode tx = Some c -> c <> "" ->
  primaryAmount tx = FormatCurrency (Js.Number z) (Js.Str c).
Proof.
  intros Ht Hz Hc Hne. unfold primaryAmount. rewrite Ht, Hc. simpl.
  destruct (Z.eqb_spec z 0); [contradiction|].
  destruct (String.eqb_spec c ""); [contradiction | reflexivity].
Qed.

(** The converted amount is appended exactly when it is a non-zero number
    with a non-empty currency code other than the native one. *)
Lemma convertedLine_span (tx : Transaction.t) :
  convertedLine tx = convertedSpan tx <->
  exists z c,
    Transaction.convertedTotal tx = Some z /\ z <> 0%Z
    /\ Transaction.convertedCurrencyCode tx = Some c /\ c <> ""
    /\ Transaction.currencyCode tx <> Some c.
Proof.
  unfold convertedLine, andAlso, convertedSpan.
  destruct (Transaction.convertedTotal tx) as [z|]; simpl.
  2: { split; [discriminate | intros (z & c & H & _); discriminate]. }
  destruct (Z.eqb_spec z 0) as [->|Hz]; simpl.
  { split; [discriminate | intros (z & c & H & Hz & _); congruence]. }
  destruct (Transaction.convertedCurrencyCode tx) as [c|]; simpl.
  2: { split; [discriminate | intros (z' & c & _ & _ & H & _); discriminate]. }
  destruct (String.eqb_spec c "") as [->|Hc]; simpl.
  { split; [discriminate | intros (z' & c & _ & _ & H & Hc & _); congruence]. }
  destruct (Transaction.currencyCode tx) as [n|]; simpl.
  - destruct (String.eqb_spec c n) as [->|Hn]; simpl.
    + split; [discriminate | intros (z' & c & _ & _ & H & _ & Hd); congruence].
    + split; [|reflexivity]. intros _. exists z, c. repeat split; congruence.
  - split; [|reflexivity]. intros _. exists z, c. repeat split; congruence.
Qed.

Lemma convertedLine_zero (tx : Transaction.t) :
  Transaction.convertedTotal tx = Some 0%Z ->
  convertedLine tx = Value (Js.Number 0) /\ drawsNothing (convertedLine tx) = false.
Proof. intros H. unfold convertedLine, andAlso. rewrite H. split; reflexivity. Qed.

(** C7, at a transaction of amount zero in USD whose converted amount is
    zero in EUR. A converted amount in another currency exists, yet no
    converted line is appended: the second child of the cell is the bare
    number 0, which is drawn as the text 0; and the primary amount is the
    bare number 0 too, not the amount formatted in USD. *)
Theorem totalFormatValue_zero :
  Transaction.convertedTotal zeroAmount = Some 0%Z
  /\ Transaction.convertedCurrencyCode zeroAmount = Some "EUR"
  /\ Transaction.currencyCode zeroAmount = Some "USD"
  /\ totalFormatValue zeroAmount
     = Element "div" [Js.Str "text-right text-lg"] []
         [ Element "div" [Js.Str "text-red-500"; Js.Str "flex flex-col justify-end"] []
             [ Element "span" [] [] [Value (Js.Number 0)];
               Value (Js.Number 0) ] ]
  /\ convertedLine zeroAmount <> convertedSpan zeroAmount
  /\ drawsNothing (convertedLine zeroAmount) = false
  /\ primaryAmount zeroAmount <> FormatCurrency (Js.Number 0) (Js.Str "USD").
Proof. repeat split; discriminate. Qed.

(** ** The footer of the total column *)

Lemma own_addAmount_same (currency : string) (amount : Z) (acc : list (string * Z)) :
  Js.own (addAmount currency amount acc) currency
  = Some (match Js.own acc currency with
          | Some v => (v + amount)%Z
          | None => amount
          end).
Proof.
  induction acc as [|[k v] others IH]; simpl.
  - now rewrite String.eqb_refl.
  - destruct (k =? currency) eqn:E; simpl; rewrite E; [reflexivity | exact IH].
Qed.

Lemma own_addAmount_other (currency key : string) (amount : Z)
      (acc : list (string * Z)) :
  key <> currency ->
  Js.own (addAmount currency amount acc) key = Js.own acc key.
Proof.
  intros Hne. induction acc as [|[k v] others IH]; simpl.
  - destruct (String.eqb_spec currency key); [congruence | reflexivity].
  - destruct (String.eqb_spec k currency) as [->|Hk]; simpl.
    + destruct (String.eqb_spec currency key); [congruence | reflexivity].
    + destruct (k =? key); [reflexivity | exact IH].
Qed.

Lemma sumFor_cons (amount : Transaction.t -> Z) (currency : string)
      (tx : Transaction.t) (others : list Transaction.t) :
  sumFor amount currency (tx :: others)
  = ((if hasCurrency currency tx then amount tx else 0)
     + sumFor amount currency others)%Z.
Proof. reflexivity. Qed.

(** What a currency code maps to after the grouping: the sum of the
    amounts of the records of that currency, on top of what the
    accumulator held; no entry for a code that no record carries. *)
Lemma own_perCurrency (amount : Transaction.t -> Z) (currency : string)
      (transactions : list Transaction.t) (acc : list (string * Z)) :
  Js.own (perCurrency amount transactions acc) currency
  = match Js.own acc currency with
    | Some v => Some (v + sumFor amount currency transactions)%Z
    | None => if existsb (hasCurrency currency) transactions
              then Some (sumFor amount currency transactions)
              else None
    end.
Proof.
  unfold perCurrency.
  revert acc. induction transactions as [|tx others IH]; intros acc.
  - simpl. destruct (Js.own acc currency); [f_equal; lia | reflexivity].
  - cbn [fold_left existsb]. rewrite IH, sumFor_cons.
    assert (Hc : hasCurrency currency tx
                 = match Transaction.currencyCode tx with
                   | Some c => c =? currency
                   | None => false
                   end)
      by (unfold hasCurrency; destruct (Transaction.currencyCode tx); reflexivity).
    rewrite Hc. clear Hc.
    destruct (Transaction.currencyCode tx) as [c|].
    + destruct (String.eqb_spec c currency) as [->|Hc].
      * rewrite own_addAmount_same.
        destruct (Js.own acc currency); simpl; f_equal; lia.
      * rewrite own_addAmount_other by congruence.
        destruct (Js.own acc currency); simpl; [f_equal; lia | reflexivity].
    + destruct (Js.own acc currency); simpl; [f_equal; lia | reflexivity].
Qed.

Lemma netTotal_lookup (currency : string) (transactions : list Transaction.t) :
  Js.own (calcNetTotalPerCurrency transactions) currency
  = if existsb (hasCurrency currency) transactions
    then Some (sumFor amountOf currency transactions)
    else None.
Proof. unfold calcNetTotalPerCurrency. now rewrite own_perCurrency. Qed.

Lemma turnover_lookup (currency : string) (transactions : list Transaction.t) :
  Js.own (calcTotalPerCurrency transactions) currency
  = if existsb (hasCurrency currency) transactions
    then Some (sumFor (fun tx => Z.abs (amountOf tx)) currency transactions)
    else None.
Proof. unfold calcTotalPerCurrency. now rewrite own_perCurrency. Qed.

(** C8. Over the three transactions 100 USD, -40 USD and 50 EUR the net
    totals are USD 60 and EUR 50 and the turnovers USD 140 and EUR 50, with
    no other currency in either mapping; the footer of the total column
    shows one row for each of them. *)
Theorem footer_totals_example :
  (forall currency,
      Js.own (calcNetTotalPerCurrency threeTotals) currency
      = Js.own [("USD", 60%Z); ("EUR", 50%Z)] currency
      /\ Js.own (calcTotalPerCurrency threeTotals) currency
         = Js.own [("USD", 140%Z); ("EUR", 50%Z)] currency)
  /\ map fst (calcNetTotalPerCurrency threeTotals) = ["USD"; "EUR"]
  /\ map fst (calcTotalPerCurrency threeTotals) = ["USD"; "EUR"]
  /\ Resolved.footerValue (getFieldRenderer totalField) = Some totalFooterValue
  /\ totalFooterValue threeTotals
     = Element "div" [Js.Str "flex flex-col gap-3 text-right"] []
         [ Element "dl" [Js.Str "space-y-1"] []
             [ heading "Net Total";
               netRow ("USD", 60%Z);
               netRow ("EUR", 50%Z) ];
           Element "dl" [Js.Str "space-y-1"] []
             [ heading "Turnover";
               turnoverRow ("USD", 140%Z);
               turnoverRow ("EUR", 50%Z) ] ].
Proof.
  split; [intros currency; split; reflexivity|].
  repeat split.
Qed.

(** * Further properties of the list view *)

(** ** Selection *)

Lemma includes_toggleOneRow (sel : list string) (id x : string) :
  includes (toggleOneRow sel id) x
  = if x =? id then negb (includes sel id) else includes sel x.
Proof.
  apply Bool.eq_iff_eq_true. rewrite includes_In, toggleOneRow_In.
  destruct (String.eqb_spec x id) as [->|Hne].
  - rewrite Bool.negb_true_iff, <- Bool.not_true_iff_false, includes_In. tauto.
  - rewrite includes_In. tauto.
Qed.

Lemma filter_absent (sel : list string) (id : string) :
  ~ In id sel -> filter (fun item => negb (item =? id)) sel = sel.
Proof.
  induction sel as [|x rest IH]; simpl; [reflexivity|].
  intros Hnot. destruct (String.eqb_spec x id) as [->|Hne]; simpl.
  - exfalso. apply Hnot. now left.
  - rewrite IH; [reflexivity | tauto].
Qed.

Lemma filter_present_length (sel : list string) (id : string) :
  NoDup sel -> In id sel ->
  List.length (filter (fun item => negb (item =? id)) sel) = pred (List.length sel).
Proof.
  induction 1 as [|x rest Hx Hnd IH]; simpl; [contradiction|].
  intros [->|Hin].
  - rewrite String.eqb_refl. simpl. now rewrite filter_absent.
  - destruct (String.eqb_spec x id) as [->|Hne]; [contradiction|].
    simpl. rewrite (IH Hin). destruct rest; [contradiction | reflexivity].
Qed.

(** X1. Ticking the checkbox of one row flips the checkbox of every listed
    row with that id and leaves the checkbox of every other row as it
    was. *)
Theorem toggleOneRow_flips_one (selectedIds : list string) (id : string)
        (tx : Transaction.t) :
  rowChecked (toggleOneRow selectedIds id) tx
  = if Transaction.id tx =? id then negb (rowChecked selectedIds tx)
    else rowChecked selectedIds tx.
Proof.
  unfold rowChecked. rewrite includes_toggleOneRow.
  destruct (String.eqb_spec (Transaction.id tx) id) as [->|]; reflexivity.
Qed.

(** X2. Ticking the same row twice gives back a selection with the same
    members; when the row was not selected before, it gives back the very
    same list. *)
Theorem toggleOneRow_twice (selectedIds : list string) (id : string) :
  (forall x, includes (toggleOneRow (toggleOneRow selectedIds id) id) x
             = includes selectedIds x)
  /\ (includes selectedIds id = false ->
      toggleOneRow (toggleOneRow selectedIds id) id = selectedIds).
Proof.
  split.
  - intros x. rewrite !includes_toggleOneRow.
    destruct (String.eqb_spec x id) as [->|]; [|reflexivity].
    rewrite String.eqb_refl. apply Bool.negb_involutive.
  - intros Hout.
    assert (Hnot : ~ In id selectedIds).
    { intros H. apply includes_In in H. congruence. }
    unfold toggleOneRow at 2. rewrite Hout. unfold toggleOneRow.
    assert (Hin : includes (selectedIds ++ [id]) id = true).
    { apply includes_In, in_or_app. right. now left. }
    rewrite Hin, filter_app, (filter_absent _ _ Hnot). simpl.
    rewrite String.eqb_refl. simpl. apply app_nil_r.
Qed.

Lemma toggleOneRow_twice_witness :
  toggleOneRow (toggleOneRow ["A"; "C"] "B") "B" = ["A"; "C"]
  /\ toggleOneRow (toggleOneRow ["A"; "B"; "C"] "B") "B" = ["A"; "C"; "B"].
Proof.
  split; [|reflexivity].
  apply (proj2 (toggleOneRow_twice ["A"; "C"] "B")). reflexivity.
Defined.

(** X3. On a duplicate-free selection, ticking a row keeps it
    duplicate-free and changes its length by exactly one: one less when
    the row was selected, one more when it was not. A deselected id is
    gone from the selection, with or without duplicates. *)
Theorem toggleOneRow_count (selectedIds : list string) (id : string) :
  (In id selectedIds -> ~ In id (toggleOneRow selectedIds id))
  /\ (NoDup selectedIds ->
      NoDup (toggleOneRow selectedIds id)
      /\ List.length (toggleOneRow selectedIds id)
         = if includes selectedIds id then pred (List.length selectedIds)
           else S (List.length selectedIds)).
Proof.
  split.
  - intros Hin H. apply toggleOneRow_In in H. tauto.
  - intros Hnd. split; [now apply toggleOneRow_NoDup|].
    unfold toggleOneRow. destruct (includes selectedIds id) eqn:E.
    + apply filter_present_length; [exact Hnd | now apply includes_In].
    + rewrite length_app. simpl. lia.
Qed.

Lemma toggleOneRow_count_witness :
  NoDup (toggleOneRow ["A"; "B"; "C"] "B")
  /\ List.length (toggleOneRow ["A"; "B"; "C"] "B") = 2%nat
  /\ ~ In "B" (toggleOneRow ["A"; "B"; "C"] "B").
Proof.
  assert (Hnd : NoDup ["A"; "B"; "C"]).
  { repeat constructor; simpl; intuition discriminate. }
  destruct (toggleOneRow_count ["A"; "B"; "C"] "B") as [Hgone Hcount].
  destruct (Hcount Hnd) as [H1 H2].
  split; [exact H1 | split; [exact H2|]].
  apply Hgone. simpl. auto.
Defined.

(** X4. Over a list that is not empty, toggle-all flips the header
    checkbox, whatever the selection was; over the empty list it leaves
    the selection empty and the header checkbox ticked. *)
Theorem toggleAllRows_flips_header (selectedIds : list string)
        (transactions : list Transaction.t) :
  (transactions <> [] ->
   allChecked (toggleAllRows selectedIds transactions) transactions
   = negb (allChecked selectedIds transactions))
  /\ toggleAllRows selectedIds [] = []
  /\ allChecked (toggleAllRows selectedIds []) [] = true.
Proof.
  split; [|split].
  - intros Hne. unfold toggleAllRows, allChecked.
    destruct (List.length selectedIds =? List.length transactions)%nat; simpl.
    + destruct transactions; [contradiction | reflexivity].
    + rewrite length_map. apply Nat.eqb_refl.
  - unfold toggleAllRows. destruct (List.length selectedIds =? _)%nat; reflexivity.
  - unfold toggleAllRows. destruct (List.length selectedIds =? _)%nat; reflexivity.
Qed.

Lemma toggleAllRows_flips_header_witness :
  allChecked (toggleAllRows ["A"] [plain "C" None None; plain "D" None None])
             [plain "C" None None; plain "D" None None] = true.
Proof.
  apply (proj1 (toggleAllRows_flips_header ["A"]
                  [plain "C" None None; plain "D" None None])).
  discriminate.
Defined.

(** X5. Toggle-all and the reset after a bulk action put the selection
    back inside the list from any state, a stale one too; after the reset
    the bulk menu is gone. *)
Theorem selection_repaired (c : TransactionList.t) :
  TransactionList.selectionListed (TransactionList.step c TransactionList.ToggleAll)
  /\ TransactionList.selectionListed
       (TransactionList.step c TransactionList.ActionComplete)
  /\ bulkMenuShown
       (TransactionList.selectedIds
          (TransactionList.step c TransactionList.ActionComplete)) = false.
Proof.
  split; [|split].
  - apply SelectionFacts.toggleAllRows_listed.
  - intros x [].
  - reflexivity.
Qed.

(** ** Sort state *)

Lemma handleSort_cases (s : Sorting.t) (f : string) :
  handleSort s f = Sorting.mk (Some f) (Some asc)
  \/ handleSort s f = Sorting.mk (Some f) (Some desc)
  \/ handleSort s f = Sorting.none.
Proof.
  unfold handleSort. destruct (field_eqb (Sorting.field s) f); [|now left].
  destruct (direction_eqb (Sorting.direction s) (Some asc)); [right; now left|].
  destruct (direction_eqb (Sorting.direction s) (Some desc)); [right; now right|].
  now left.
Qed.

(** X6. Whatever the state, a click leaves the table unsorted or sorted on
    the clicked column, and puts the state on the three-cycle of that
    column: three further clicks on it come back to the same state. *)
Theorem handleSort_period (s : Sorting.t) (f : string) :
  (Sorting.field (handleSort s f) = Some f \/ handleSort s f = Sorting.none)
  /\ handleSort (handleSort (handleSort (handleSort s f) f) f) f = handleSort s f.
Proof.
  destruct (handleSort_cases s f) as [H|[H|H]]; rewrite H; split;
    try (left; reflexivity); try (right; reflexivity);
    unfold Sorting.none;
    repeat first [ rewrite handleSort_same
                 | rewrite (handleSort_other (Sorting.mk None None)) by discriminate ];
    reflexivity.
Qed.

(** X7. In every state the mounted component reaches, whatever the
    [ordering] token it started from, a direction is set only together
    with a field. *)
Theorem reachable_sorting_wellFormed (c : TransactionList.t) :
  reachable c -> sortingWellFormed (TransactionList.sorting c).
Proof.
  induction 1 as [txs fields params | c e Hr IH Hoff].
  - apply decodeOrdering_wellFormed.
  - destruct e; simpl; try exact IH.
    unfold headerClick. destruct (Resolved.sortable _); [|exact IH].
    apply handleSort_wellFormed.
Qed.

Lemma reachable_sorting_wellFormed_witness :
  sortingWellFormed
    (TransactionList.sorting
       (TransactionList.step
          (TransactionList.mount [] [nameField] [("ordering", "-name")])
          (TransactionList.HeaderClick (column nameField)))).
Proof.
  apply reachable_sorting_wellFormed.
  apply reachable_step; [apply reachable_mount|].
  simpl. auto.
Defined.

(** X8. The state a click on a sortable header sets is the state the
    component starts in when it is mounted on the navigation target of
    that click: the token written parses back to the same field and
    direction. *)
Theorem headerClick_survives_reload (field : Field.t) (s : Sorting.t)
        (searchParams : URLSearchParams.t) :
  Resolved.sortable (getFieldRenderer field) = true ->
  let s' := headerClick s (column field) in
  decodeOrdering (encodeOrdering s') = s'
  /\ initialSorting (listingParams (syncOrdering s' searchParams)) = s'.
Proof.
  intros Hs s'.
  assert (E : decodeOrdering (encodeOrdering s') = s').
  { unfold s', headerClick, column. simpl. rewrite Hs.
    apply sortable_codes in Hs. simpl in Hs.
    destruct (handleSort_cases s (Field.code field)) as [H|[H|H]]; rewrite H;
      try reflexivity;
      repeat (destruct Hs as [<-|Hs]; [reflexivity|]); contradiction. }
  split; [exact E|].
  unfold initialSorting. now rewrite syncOrdering_get.
Qed.

Lemma headerClick_survives_reload_witness :
  initialSorting
    (listingParams
       (syncOrdering (headerClick (Sorting.mk (Some "total") (Some asc))
                                  (column totalField))
                     sampleParams))
  = Sorting.mk (Some "total") (Some desc).
Proof.
  apply (proj2 (headerClick_survives_reload totalField
                  (Sorting.mk (Some "total") (Some asc)) sampleParams eq_refl)).
Defined.

(** X9. Parsing a token and writing the state back gives the token again
    for every token except the empty text and the lone ["-"]: these two
    are the only tokens the round trip loses. *)
Theorem ordering_roundtrip_exact (token : option string) :
  encodeOrdering (decodeOrdering token) = token
  <-> (token <> Some "" /\ token <> Some "-").
Proof.
  split.
  - intros H. split; intros ->; discriminate H.
  - intros [H1 H2]. now apply encode_decode.
Qed.

Lemma ordering_roundtrip_exact_witness :
  encodeOrdering (decodeOrdering (Some "--total")) = Some "--total".
Proof.
  apply (proj2 (ordering_roundtrip_exact (Some "--total"))).
  split; discriminate.
Defined.

(** X10. After a click on a sortable header no other column shows a sort
    arrow, and the clicked column shows the arrow of its new direction: up
    for ascending, down for descending, none when the sort was cleared. *)
Theorem getSortIcon_after_click (field : Field.t) (s : Sorting.t) (other : string) :
  Resolved.sortable (getFieldRenderer field) = true ->
  let s' := headerClick s (column field) in
  (other <> Field.code field -> getSortIcon s' other = Value Js.Null)
  /\ getSortIcon s' (Field.code field)
     = match Sorting.direction s' with
       | Some asc => arrowUp
       | Some desc => arrowDown
       | None => Value Js.Null
       end.
Proof.
  intros Hs s'. unfold s', headerClick, column. simpl. rewrite Hs.
  assert (Hother : forall d, other <> Field.code field ->
            getSortIcon (Sorting.mk (Some (Field.code field)) d) other = Value Js.Null).
  { intros d Hne. unfold getSortIcon. simpl.
    destruct (String.eqb_spec (Field.code field) other); [congruence | reflexivity]. }
  destruct (handleSort_cases s (Field.code field)) as [H|[H|H]]; rewrite H; split;
    try (apply Hother);
    try (unfold getSortIcon; simpl; rewrite ?String.eqb_refl; reflexivity).
Qed.

Lemma getSortIcon_after_click_witness :
  getSortIcon (headerClick Sorting.none (column nameField)) "total" = Value Js.Null
  /\ getSortIcon (headerClick Sorting.none (column nameField)) "name" = arrowUp.
Proof.
  destruct (getSortIcon_after_click nameField Sorting.none "total" eq_refl)
    as [Hother Hsame].
  split; [apply Hother; discriminate | exact Hsame].
Defined.

(** ** The navigation target of a sort change *)

Lemma getAll_delete_same (name : string) (params : URLSearchParams.t) :
  URLSearchParams.getAll name (URLSearchParams.delete name params) = [].
Proof.
  unfold URLSearchParams.getAll, URLSearchParams.delete.
  induction params as [|[k v] rest IH]; simpl; [reflexivity|].
  destruct (k =? name) eqn:E; simpl; [exact IH|]. now rewrite E.
Qed.

Lemma getAll_set_same (name value : string) (params : URLSearchParams.t) :
  URLSearchParams.getAll name (URLSearchParams.set name value params) = [value].
Proof.
  induction params as [|[k v] rest IH]; simpl.
  - unfold URLSearchParams.getAll. simpl. now rewrite String.eqb_refl.
  - destruct (k =? name) eqn:E.
    + unfold URLSearchParams.getAll. simpl. rewrite String.eqb_refl. simpl.
      f_equal. apply getAll_delete_same.
    + unfold URLSearchParams.getAll in *. simpl. rewrite E. exact IH.
Qed.

Lemma delete_delete (name : string) (params : URLSearchParams.t) :
  URLSearchParams.delete name (URLSearchParams.delete name params)
  = URLSearchParams.delete name params.
Proof. apply ParamsFacts.others_delete. Qed.

Lemma set_set (name value : string) (params : URLSearchParams.t) :
  URLSearchParams.set name value (URLSearchParams.set name value params)
  = URLSearchParams.set name value params.
Proof.
  induction params as [|[k v] rest IH]; simpl.
  - now rewrite String.eqb_refl.
  - destruct (k =? name) eqn:E; simpl.
    + rewrite String.eqb_refl. now rewrite delete_delete.
    + rewrite E. now rewrite IH.
Qed.

(** X11. The navigation target of a sort change carries at most one
    [ordering] parameter, the token of the new state, however many the
    current query string had. *)
Theorem syncOrdering_single (sorting : Sorting.t) (searchParams : URLSearchParams.t) :
  URLSearchParams.getAll "ordering" (listingParams (syncOrdering sorting searchParams))
  = match encodeOrdering sorting with
    | Some ordering => [ordering]
    | None => []
    end.
Proof.
  unfold syncOrdering, URLSearchParams.copy. simpl.
  destruct (encodeOrdering sorting).
  - apply getAll_set_same.
  - apply getAll_delete_same.
Qed.

(** X12. Running the sort effect again on its own navigation target, with
    the same sort state, gives that target again. *)
Theorem syncOrdering_idempotent (sorting : Sorting.t) (searchParams : URLSearchParams.t) :
  syncOrdering sorting (listingParams (syncOrdering sorting searchParams))
  = syncOrdering sorting searchParams.
Proof.
  unfold syncOrdering, URLSearchParams.copy. simpl.
  destruct (encodeOrdering sorting); f_equal.
  - apply set_set.
  - apply delete_delete.
Qed.

(** ** Columns, headers and cells *)

(** X13. The visible columns are the fields marked visible, in the order
    of the field list, each with the renderer the registry resolves for
    it. *)
Theorem visibleFields_spec (fields : list Field.t) :
  map FieldWithRenderer.field (visibleFields fields)
  = filter Field.isVisibleInList fields
  /\ (forall col, In col (visibleFields fields) <->
        exists field, In field fields /\ Field.isVisibleInList field = true
                      /\ col = column field)
  /\ (forall field, In field fields -> Field.isVisibleInList field = false ->
        ~ In field (map FieldWithRenderer.field (visibleFields fields))).
Proof.
  assert (Hmap : map FieldWithRenderer.field (visibleFields fields)
                 = filter Field.isVisibleInList fields).
  { unfold visibleFields. rewrite map_map. simpl. apply map_id. }
  split; [exact Hmap | split].
  - intros col. unfold visibleFields. rewrite in_map_iff. split.
    + intros (field & <- & Hin). apply filter_In in Hin.
      exists field. repeat split; tauto.
    + intros (field & Hin & Hv & ->). exists field. split; [reflexivity|].
      apply filter_In. tauto.
  - intros field _ Hv. rewrite Hmap, filter_In. intros [_ H]. congruence.
Qed.

Lemma visibleFields_spec_witness :
  ~ In (Field.mk "note" "Note" false false)
       (map FieldWithRenderer.field
            (visibleFields [nameField; Field.mk "note" "Note" false false; totalField])).
Proof.
  apply (proj2 (proj2 (visibleFields_spec
           [nameField; Field.mk "note" "Note" false false; totalField]))).
  - simpl. auto.
  - reflexivity.
Defined.

(** X14. Only the column of the field with code [total] has a footer; the
    footer cell of every other column, standard or not, is the empty
    text. *)
Theorem footerCell_only_total (transactions : list Transaction.t) (field : Field.t) :
  footerCell transactions (column field)
  = if Field.code field =? "total" then totalFooterValue transactions
    else Value (Js.Str "").
Proof.
  unfold footerCell, column. cbn [FieldWithRenderer.renderer].
  unfold getFieldRenderer, Js.get, standardFieldRenderers. cbn [Js.own].
  repeat match goal with
         | |- context [String.eqb ?k (Field.code field)] =>
             destruct (String.eqb_spec k (Field.code field)) as [<-|?]
         end; try reflexivity.
  destruct (Field.code field =? "total") eqn:E;
    [apply String.eqb_eq in E; congruence|].
  destruct (Js.objectPrototype (Field.code field)); reflexivity.
Qed.

(** X15. A column is titled by the name of its field whenever that name is
    not empty; with an empty name a standard column takes the title of its
    renderer, and a column with a fallback renderer has an empty title. *)
Theorem headerLabel_spec (field : Field.t) :
  (Field.name field <> "" -> headerLabel (column field) = Js.Str (Field.name field))
  /\ (Field.name field = "" ->
      forall r, Js.own standardFieldRenderers (Field.code field) = Some r ->
                headerLabel (column field) = Js.Str (Renderer.name r))
  /\ (Field.name field = "" ->
      ~ In (Field.code field) standardCodes ->
      Js.objectPrototype (Field.code field) = None ->
      headerLabel (column field) = Js.Str "").
Proof.
  unfold headerLabel, column.
  cbn [FieldWithRenderer.field FieldWithRenderer.renderer Js.truthy].
  split; [|split].
  - intros Hne. destruct (String.eqb_spec (Field.name field) ""); [contradiction|].
    reflexivity.
  - intros He r Hown. rewrite He. cbn [String.eqb negb].
    unfold getFieldRenderer, Js.get. now rewrite Hown.
  - intros He Hstd Hproto. rewrite He. cbn [String.eqb negb].
    destruct (getFieldRenderer_fallback field Hstd Hproto) as (_ & Hname & _).
    now rewrite Hname, He.
Qed.

Lemma headerLabel_spec_witness :
  headerLabel (column (Field.mk "issuedAt" "Issued" true false)) = Js.Str "Issued"
  /\ headerLabel (column (Field.mk "issuedAt" "" true false)) = Js.Str "Date"
  /\ headerLabel (column (Field.mk "custom1" "" true true)) = Js.Str "".
Proof.
  split; [|split].
  - apply (proj1 (headerLabel_spec (Field.mk "issuedAt" "Issued" true false))).
    discriminate.
  - apply (proj1 (proj2 (headerLabel_spec (Field.mk "issuedAt" "" true false)))
             eq_refl
             (Renderer.mk "Date" "issuedAt" (Some "min-w-[100px]") true
                          (Some issuedAtFormatValue) None)).
    reflexivity.
  - apply (proj2 (proj2 (headerLabel_spec (Field.mk "custom1" "" true true))));
      [reflexivity | | reflexivity].
    rewrite standardCodes_eq. simpl. intuition discriminate.
Defined.

(** X16. The standard columns without a formatter ([name], [merchant],
    [currencyCode]) show the text of the attribute; for a transaction that
    lacks the attribute the text is the four letters "null". *)
Theorem plain_columns_text (tx : Transaction.t) (field : Field.t)
        (value : option string) :
  Field.isExtra field = false ->
  (Field.code field = "name" /\ value = Transaction.name tx)
  \/ (Field.code field = "merchant" /\ value = Transaction.merchant tx)
  \/ (Field.code field = "currencyCode" /\ value = Transaction.currencyCode tx) ->
  renderFieldInTable tx (column field) = StringOf (Js.ofString value)
  /\ jsToString (Js.ofString value)
     = Some (match value with Some s => s | None => "null" end).
Proof.
  intros Hx Hcode. split; [|destruct value; reflexivity].
  destruct field as [code name visible isExtra]. simpl in Hx, Hcode. subst isExtra.
  destruct Hcode as [[-> ->]|[[-> ->]|[-> ->]]]; reflexivity.
Qed.

Lemma plain_columns_text_witness :
  renderFieldInTable (plain "t" None None)
                     (column (Field.mk "merchant" "Merchant" true false))
  = StringOf Js.Null
  /\ jsToString Js.Null = Some "null".
Proof.
  apply (plain_columns_text (plain "t" None None)
           (Field.mk "merchant" "Merchant" true false) None eq_refl).
  right. left. split; reflexivity.
Defined.

(** X17. A field that is not extra, whose code is no standard code and no
    attribute of the transaction (nor a name of [Object.prototype]), shows
    the text "undefined" in every row. *)
Theorem unknown_attribute_text (tx : Transaction.t) (field : Field.t) :
  Field.isExtra field = false ->
  ~ In (Field.code field) standardCodes ->
  Js.objectPrototype (Field.code field) = None ->
  Js.own (Transaction.properties tx) (Field.code field) = None ->
  renderFieldInTable tx (column field) = StringOf Js.Undefined
  /\ jsToString Js.Undefined = Some "undefined".
Proof.
  intros Hx Hstd Hproto Hown. split; [|reflexivity].
  destruct (getFieldRenderer_plain field Hstd) as (_ & Hf & _).
  rewrite (renderFieldInTable_attribute tx field Hx Hf).
  unfold Transaction.attribute, Js.get. now rewrite Hown, Hproto.
Qed.

Lemma unknown_attribute_text_witness :
  renderFieldInTable (plain "t" (Some 5%Z) (Some "USD"))
                     (column (Field.mk "vat" "VAT" true false))
  = StringOf Js.Undefined.
Proof.
  apply (unknown_attribute_text (plain "t" (Some 5%Z) (Some "USD"))
           (Field.mk "vat" "VAT" true false)); try reflexivity.
  rewrite standardCodes_eq. simpl. intuition discriminate.
Defined.

(** X18. For an extra field whose key is stored in the extra mapping, the
    cell is the stored value itself, zero, [false] and the empty text
    included; only a stored [null] is replaced by the empty text. *)
Theorem extra_stored_value (tx : Transaction.t) (field : Field.t)
        (props : list (string * Js.Value)) (v : Js.Value) :
  Field.isExtra field = true ->
  Transaction.extra tx = Some props ->
  Js.own props (Field.code field) = Some v ->
  (v = Js.Null -> renderFieldInTable tx (column field) = Value (Js.Str ""))
  /\ (v <> Js.Null -> v <> Js.Undefined ->
      renderFieldInTable tx (column field) = Value v).
Proof.
  intros Hx He Hown. rewrite (renderFieldInTable_extra _ _ Hx).
  unfold extraValue, Js.get. rewrite He, Hown. simpl. split.
  - intros ->. reflexivity.
  - intros H1 H2. destruct v; try reflexivity; congruence.
Qed.

Lemma extra_stored_value_witness :
  renderFieldInTable
    (Transaction.mk "t" None None None None None None None None None None None None
                    [] (Some [("custom1", Js.Number 0); ("custom2", Js.Null)]) [])
    (column custom1Field)
  = Value (Js.Number 0).
Proof.
  apply (proj2 (extra_stored_value
           (Transaction.mk "t" None None None None None None None None None None
                           None None [] (Some [("custom1", Js.Number 0);
                                               ("custom2", Js.Null)]) [])
           custom1Field [("custom1", Js.Number 0); ("custom2", Js.Null)]
           (Js.Number 0) eq_refl eq_refl eq_refl)); discriminate.
Defined.

(** ** The total column *)

(** X19. The second child of a total cell is one of three things: the
    line with the converted amount, the bare number 0, or something React
    draws nothing for. When the converted amount is not zero and its
    currency is the native one, nothing is drawn. *)
Theorem convertedLine_outcomes (tx : Transaction.t) :
  (convertedLine tx = convertedSpan tx
   \/ convertedLine tx = Value (Js.Number 0)
   \/ drawsNothing (convertedLine tx) = true)
  /\ (forall z c,
        Transaction.convertedTotal tx = Some z -> z <> 0%Z ->
        Transaction.convertedCurrencyCode tx = Some c ->
        Transaction.currencyCode tx = Some c ->
        drawsNothing (convertedLine tx) = true).
Proof.
  unfold convertedLine, andAlso. split.
  - destruct (Transaction.convertedTotal tx) as [z|]; simpl;
      [|right; right; reflexivity].
    destruct (Z.eqb_spec z 0) as [->|Hz]; simpl; [right; left; reflexivity|].
    destruct (Transaction.convertedCurrencyCode tx) as [c|]; simpl;
      [|right; right; reflexivity].
    destruct (String.eqb_spec c "") as [->|Hc]; simpl; [right; right; reflexivity|].
    destruct (Transaction.currencyCode tx) as [n|]; simpl;
      [|left; reflexivity].
    destruct (c =? n); simpl; [right; right; reflexivity | left; reflexivity].
  - intros z c Hz Hnz Hc Hn. rewrite Hz, Hc, Hn. simpl.
    destruct (Z.eqb_spec z 0); [contradiction|]. simpl.
    destruct (String.eqb_spec c ""); simpl; [subst; reflexivity|].
    rewrite String.eqb_refl. reflexivity.
Qed.

Lemma convertedLine_outcomes_witness :
  drawsNothing
    (convertedLine
       (Transaction.mk "t" None None None (Some 1250%Z) (Some "USD")
                       (Some 1250%Z) (Some "USD") None None None None None
                       [] None [])) = true.
Proof.
  apply (proj2 (convertedLine_outcomes
           (Transaction.mk "t" None None None (Some 1250%Z) (Some "USD")
                           (Some 1250%Z) (Some "USD") None None None None None
                           [] None [])) 1250%Z "USD");
    [reflexivity | discriminate | reflexivity | reflexivity].
Defined.

(** X20. A transaction whose type is a text other than [income],
    [expense] and [other] (and no name of [Object.prototype]) gets no
    colour class in the total and converted-total cells; a missing or
    empty type gets the class of [other]. *)
Theorem typeColor_unknown (tx : Transaction.t) :
  (forall s, Transaction.type tx = Some s -> s <> "" ->
             ~ In s ["income"; "expense"; "other"] ->
             Js.objectPrototype s = None ->
             typeColor tx = Js.Undefined)
  /\ (Transaction.type tx = None \/ Transaction.type tx = Some "" ->
      typeColor tx = Js.Str "text-black").
Proof.
  unfold typeColor. split.
  - intros s Ht Hne Hnot Hproto. rewrite Ht.
    destruct (String.eqb_spec s ""); [contradiction|].
    unfold Js.get, typeColors. cbn [Js.own].
    repeat match goal with
           | |- context [String.eqb ?k s] =>
               destruct (String.eqb_spec k s) as [<-|?]; [exfalso; simpl in Hnot; tauto|]
           end.
    now rewrite Hproto.
  - intros [->| ->]; reflexivity.
Qed.

Lemma typeColor_unknown_witness :
  typeColor (Transaction.mk "t" None None None None None None None
                            (Some "transfer") None None None None [] None [])
  = Js.Undefined.
Proof.
  apply (proj1 (typeColor_unknown
           (Transaction.mk "t" None None None None None None None
                           (Some "transfer") None None None None [] None []))
           "transfer" eq_refl); [discriminate | | reflexivity].
  simpl. intuition discriminate.
Defined.

(** ** The build configuration *)

Lemma truthy_envValue (o : option string) :
  Js.truthy (NextConfig.envValue o) = true <-> NextConfig.present o.
Proof.
  unfold NextConfig.present. destruct o as [s|]; simpl.
  - destruct (String.eqb_spec s "") as [->|Hne]; simpl; split.
    + discriminate.
    + intros (s & H & Hne). congruence.
    + intros _. now exists s.
    + reflexivity.
  - split; [discriminate | intros (s & H & _); discriminate].
Qed.

(** X21. The exported configuration is wrapped for Sentry exactly when the
    DSN, the organisation and the project are all set to non-empty texts;
    the organisation and project handed over are then those texts, and
    the build is silent exactly when [CI] is unset or empty. In every other
    case the plain configuration is exported. *)
Theorem defaultExport_spec (env : NextConfig.Env) :
  (NextConfig.present (NextConfig.NEXT_PUBLIC_SENTRY_DSN env)
   /\ NextConfig.present (NextConfig.SENTRY_ORG env)
   /\ NextConfig.present (NextConfig.SENTRY_PROJECT env) ->
   exists o p,
     NextConfig.SENTRY_ORG env = Some o /\ o <> ""
     /\ NextConfig.SENTRY_PROJECT env = Some p /\ p <> ""
     /\ NextConfig.defaultExport env
        = NextConfig.WithSentry NextConfig.nextConfig
            (NextConfig.mkOptions
               (negb (Js.truthy (NextConfig.envValue (NextConfig.CI env))))
               (Js.Str o) (Js.Str p) true true "/monitoring"))
  /\ (~ (NextConfig.present (NextConfig.NEXT_PUBLIC_SENTRY_DSN env)
         /\ NextConfig.present (NextConfig.SENTRY_ORG env)
         /\ NextConfig.present (NextConfig.SENTRY_PROJECT env)) ->
      NextConfig.defaultExport env = NextConfig.Plain NextConfig.nextConfig).
Proof.
  unfold NextConfig.defaultExport, NextConfig.isSentryEnabled.
  pose proof (truthy_envValue (NextConfig.NEXT_PUBLIC_SENTRY_DSN env)) as Hd.
  pose proof (truthy_envValue (NextConfig.SENTRY_ORG env)) as Ho.
  pose proof (truthy_envValue (NextConfig.SENTRY_PROJECT env)) as Hp.
  split.
  - intros (H1 & H2 & H3).
    apply Hd in H1. rewrite H1.
    pose proof H2 as (o & Eo & Hno). pose proof H3 as (p & Ep & Hnp).
    apply Ho in H2. rewrite H2. apply Hp in H3. rewrite H3.
    exists o, p. rewrite Eo, Ep. repeat split; assumption.
  - intros Hnot.
    destruct (Js.truthy (NextConfig.envValue (NextConfig.NEXT_PUBLIC_SENTRY_DSN env)))
      eqn:E1.
    + destruct (Js.truthy (NextConfig.envValue (NextConfig.SENTRY_ORG env))) eqn:E2.
      * destruct (Js.truthy (NextConfig.envValue (NextConfig.SENTRY_PROJECT env)))
          eqn:E3; [|reflexivity].
        exfalso. apply Hnot. repeat split;
          [apply Hd | apply Ho | apply Hp]; reflexivity.
      * rewrite E2. reflexivity.
    + rewrite E1. reflexivity.
Qed.

Lemma defaultExport_spec_witness :
  (exists o p,
     NextConfig.SENTRY_ORG sentryEnv = Some o /\ o <> ""
     /\ NextConfig.SENTRY_PROJECT sentryEnv = Some p /\ p <> ""
     /\ NextConfig.defaultExport sentryEnv
        = NextConfig.WithSentry NextConfig.nextConfig
            (NextConfig.mkOptions
               (negb (Js.truthy (NextConfig.envValue (NextConfig.CI sentryEnv))))
               (Js.Str o) (Js.Str p) true true "/monitoring"))
  /\ NextConfig.defaultExport
       (NextConfig.mkEnv (Some "https://key@sentry.example/1") (Some "")
                         (Some "taxhacker") (Some "1"))
     = NextConfig.Plain NextConfig.nextConfig.
Proof.
  split.
  - apply (proj1 (defaultExport_spec sentryEnv)).
    repeat split; eexists; (split; [reflexivity | discriminate]).
  - apply (proj2 (defaultExport_spec
             (NextConfig.mkEnv (Some "https://key@sentry.example/1") (Some "")
                               (Some "taxhacker") (Some "1")))).
    intros (_ & (s & H & Hne) & _). simpl in H. congruence.
Defined.

(** ** Selection and the header checkbox together *)

Lemma everyListedSelected_rows (sel : list string) (txs : list Transaction.t) :
  everyListedSelected sel txs = true
  <-> forall tx, In tx txs -> rowChecked sel tx = true.
Proof.
  unfold everyListedSelected, rowChecked. rewrite forallb_forall. split.
  - intros H tx Hin. apply H, in_map, Hin.
  - intros H x Hx. apply in_map_iff in Hx. destruct Hx as (tx & <- & Hin). auto.
Qed.

(** X22. While the list stays the same and its ids are distinct, every
    handler keeps the selection duplicate-free and inside the list, and in
    such a state the header checkbox is ticked exactly when the checkbox of
    every row is ticked. *)
Theorem selection_tidy_step (c : TransactionList.t) (e : TransactionList.Event) :
  TransactionList.offered c e ->
  (forall transactions' fields', e <> TransactionList.Render transactions' fields') ->
  NoDup (map Transaction.id (TransactionList.transactions c)) ->
  NoDup (TransactionList.selectedIds c) ->
  TransactionList.selectionListed c ->
  let c' := TransactionList.step c e in
  NoDup (TransactionList.selectedIds c')
  /\ TransactionList.selectionListed c'
  /\ (allChecked (TransactionList.selectedIds c') (TransactionList.transactions c') = true
      <-> forall tx, In tx (TransactionList.transactions c') ->
                     rowChecked (TransactionList.selectedIds c') tx = true).
Proof.
  intros Hoff Hnr Hids Hsel Hinv c'.
  assert (Htx : TransactionList.transactions c' = TransactionList.transactions c).
  { unfold c'. destruct e; try reflexivity. exfalso. now apply (Hnr transactions fields). }
  assert (Hnd : NoDup (TransactionList.selectedIds c'))
    by (now apply SelectionFacts.handlers_keep_NoDup).
  assert (Hl : TransactionList.selectionListed c').
  { unfold TransactionList.selectionListed in *. rewrite Htx. unfold c'.
    destruct e; simpl in *.
    - apply SelectionFacts.toggleAllRows_listed.
    - now apply SelectionFacts.toggleOneRow_listed.
    - intros x [].
    - exact Hinv.
    - exfalso. now apply (Hnr transactions fields). }
  split; [exact Hnd | split; [exact Hl|]].
  unfold TransactionList.selectionListed in Hl. rewrite Htx in *.
  rewrite (allChecked_everyListedSelected _ _ Hnd Hids Hl).
  apply everyListedSelected_rows.
Qed.

Lemma selection_tidy_step_witness :
  let c' := TransactionList.step staleSelection (TransactionList.ToggleOne "B") in
  NoDup (TransactionList.selectedIds c')
  /\ TransactionList.selectionListed c'
  /\ (allChecked (TransactionList.selectedIds c') (TransactionList.transactions c') = true
      <-> forall tx, In tx (TransactionList.transactions c') ->
                     rowChecked (TransactionList.selectedIds c') tx = true).
Proof.
  apply (selection_tidy_step staleSelection (TransactionList.ToggleOne "B")).
  - simpl. auto.
  - discriminate.
  - repeat constructor; simpl; intuition discriminate.
  - repeat constructor; simpl; intuition discriminate.
  - intros x [<-|[]]. simpl. auto.
Defined.

(** X23. The converted-total cell has one child: the converted amount
    formatted in its currency exactly when the amount is a non-zero number
    with a non-empty currency code, and the bare amount otherwise, for
    which nothing is drawn when it is missing. *)
Theorem convertedTotalFormatValue_child (tx : Transaction.t) :
  exists child,
    convertedTotalFormatValue tx
    = Element "div"
        [typeColor tx; Js.Str "flex flex-col justify-end text-right text-lg"] []
        [child]
    /\ ((exists z c, Transaction.convertedTotal tx = Some z /\ z <> 0%Z
                     /\ Transaction.convertedCurrencyCode tx = Some c /\ c <> "")
        -> child = FormatCurrency (Js.ofNumber (Transaction.convertedTotal tx))
                                  (Js.ofString (Transaction.convertedCurrencyCode tx)))
    /\ (~ (exists z c, Transaction.convertedTotal tx = Some z /\ z <> 0%Z
                       /\ Transaction.convertedCurrencyCode tx = Some c /\ c <> "")
        -> child = Value (Js.ofNumber (Transaction.convertedTotal tx)))
    /\ (Transaction.convertedTotal tx = None -> drawsNothing child = true).
Proof.
  unfold convertedTotalFormatValue. eexists. split; [reflexivity|].
  destruct (Transaction.convertedTotal tx) as [z|]; simpl.
  - destruct (Z.eqb_spec z 0) as [->|Hz]; simpl.
    + split; [|split; [reflexivity | discriminate]].
      intros (z & c & H & Hz & _). congruence.
    + destruct (Transaction.convertedCurrencyCode tx) as [c|]; simpl.
      * destruct (String.eqb_spec c "") as [->|Hc]; simpl.
        -- split; [|split; [reflexivity | discriminate]].
           intros (z' & c & _ & _ & H & Hc). congruence.
        -- split; [reflexivity | split; [|discriminate]].
           intros Hnot. exfalso. apply Hnot. exists z, c. repeat split; assumption.
      * split; [|split; [reflexivity | discriminate]].
        intros (z' & c & _ & _ & H & _). discriminate.
  - split; [|split; reflexivity].
    intros (z & c & H & _). discriminate.
Qed.

Lemma convertedTotalFormatValue_child_witness :
  convertedTotalFormatValue zeroAmount
  = Element "div"
      [Js.Str "text-red-500"; Js.Str "flex flex-col justify-end text-right text-lg"] []
      [Value (Js.Number 0)].
Proof.
  destruct (convertedTotalFormatValue_child zeroAmount) as (child & E & _ & Hraw & _).
  rewrite E. rewrite Hraw; [reflexivity|].
  intros (z & c & H & Hz & _). simpl in H. congruence.
Defined.
